(** * opencode-embedded-skill-mcp: the tool surface, the skill loader and the
      session hook, embedded in Rocq

    Part I holds the definitions, one module per source file:
    - [Js]          the few pieces of the JavaScript runtime the sources lean on
    - [Eff]         the effect monad (exceptions over a threaded world)
    - [Host]        types.ts and the interfaces the sources are written against
    - [SkillMcp]    tools/skill-mcp.ts    (the [skill_mcp] tool)
    - [SkillTool]   tools/skill.ts        ([formatMcpCapabilities])
    - [Plugin]      index.ts              (the session [event] hook)
    - [Frontmatter] utils/frontmatter.ts
    - [SkillLoader] skill-loader.ts       ([loadMcpJsonFromDir], [loadSkillFromPath])
    - [EnvVars]     utils/env-vars.ts     ([normalizeCommand])
    - [Fixtures]    concrete runtimes, Managers and inputs
    Part II holds the lemmas and theorems, and then their instances. *)

From Stdlib Require Import String Ascii List Bool Arith NArith Lia.
From Stdlib Require Import DecimalString.
Import ListNotations.
Open Scope list_scope.
Open Scope string_scope.

(** [++] is string concatenation throughout; lists are appended with [+++]. *)
Infix "+++" := app (right associativity, at level 60) : list_scope.

(* ================================================================== *)
(** * Part I: definitions                                              *)
(* ================================================================== *)

Module Js.

Definition LF : ascii := ascii_of_nat 10.
Definition nl : string := String LF EmptyString.
Definition dq : string := String (ascii_of_nat 34) EmptyString.

(** Completion of a call: a value, or a thrown [Error] carried by its message. *)
Inductive Result (A : Type) : Type :=
| Ok (a : A)
| Throw (msg : string).
Arguments Ok {A} a.
Arguments Throw {A} msg.

(** Truthiness of a string ([if (s)], [!s], [s && ...]). *)
Definition truthy (s : string) : bool :=
  match s with
  | EmptyString => false
  | String _ _ => true
  end.

(** Truthiness of an optional string property ([undefined] is falsy). *)
Definition truthy_opt (o : option string) : bool :=
  match o with
  | Some s => truthy s
  | None => false
  end.

(** [s.split('\n')]: always at least one piece. *)
Fixpoint split_nl (s : string) : list string :=
  match s with
  | EmptyString => [EmptyString]
  | String c rest =>
      if Ascii.eqb c LF then EmptyString :: split_nl rest
      else match split_nl rest with
           | [] => [String c EmptyString]
           | piece :: pieces => String c piece :: pieces
           end
  end.

(** [a.join(sep)] on an array of strings. *)
Definition join (sep : string) (a : list string) : string := String.concat sep a.

(** Whether a line feed occurs in [s]. *)
Fixpoint has_lf (s : string) : bool :=
  match s with
  | EmptyString => false
  | String c rest => Ascii.eqb c LF || has_lf rest
  end.

(** [s.split('\n')[0]]. *)
Definition first_line (s : string) : string := hd EmptyString (split_nl s).

(** [s.startsWith(p)] and [s.includes(p)]. *)
Definition startsWith (s p : string) : bool := String.prefix p s.

Fixpoint includes (s p : string) : bool :=
  String.prefix p s ||
  match s with
  | EmptyString => false
  | String _ rest => includes rest p
  end.

Definition nat_to_string (n : nat) : string := NilZero.string_of_uint (Nat.to_uint n).

(** Numbers stay abstract: the sources only print them and test them for
    truthiness. *)
Class JsNumber (Num : Type) : Type := {
  number_to_string : Num -> string;
  number_truthy : Num -> bool
}.

(** A JSON (or YAML) value as [JSON.parse] / [yaml.load] hand it over.  An
    object is the list of its own properties in enumeration order. *)
#[local] Unset Elimination Schemes.
Inductive JValue (Num : Type) : Type :=
| JNull
| JBool (b : bool)
| JNumber (n : Num)
| JString (s : string)
| JArray (items : list (JValue Num))
| JObject (props : list (string * JValue Num)).
#[local] Set Elimination Schemes.
Arguments JNull {Num}.
Arguments JBool {Num} b.
Arguments JNumber {Num} n.
Arguments JString {Num} s.
Arguments JArray {Num} items.
Arguments JObject {Num} props.

(** Property names every plain object inherits from [Object.prototype]. *)
Definition Object_prototype_keys : list string :=
  [ "constructor"; "hasOwnProperty"; "isPrototypeOf"; "propertyIsEnumerable";
    "toLocaleString"; "toString"; "valueOf"; "__proto__";
    "__defineGetter__"; "__defineSetter__"; "__lookupGetter__"; "__lookupSetter__" ].

(** Names an array answers to besides its indices. *)
Definition Array_builtin_keys : list string :=
  [ "length"; "at"; "concat"; "copyWithin"; "entries"; "every"; "fill"; "filter";
    "find"; "findIndex"; "findLast"; "findLastIndex"; "flat"; "flatMap"; "forEach";
    "includes"; "indexOf"; "join"; "keys"; "lastIndexOf"; "map"; "pop"; "push";
    "reduce"; "reduceRight"; "reverse"; "shift"; "slice"; "some"; "sort"; "splice";
    "toReversed"; "toSorted"; "toSpliced"; "unshift"; "values"; "with" ]
  +++ Object_prototype_keys.

Definition mem (k : string) (ks : list string) : bool := existsb (String.eqb k) ks.

Section Records.
Context {V : Type}.

(** [Object.keys(o)]. *)
Definition Object_keys (o : list (string * V)) : list string := map fst o.

(** Own-property lookup. *)
Fixpoint get_own (k : string) (o : list (string * V)) : option V :=
  match o with
  | [] => None
  | (k', v) :: rest => if String.eqb k k' then Some v else get_own k rest
  end.

Definition has_own (k : string) (o : list (string * V)) : bool :=
  match get_own k o with
  | Some _ => true
  | None => false
  end.

(** [k in o] for a plain object: own properties, then the prototype chain. *)
Definition js_in (k : string) (o : list (string * V)) : bool :=
  has_own k o || mem k Object_prototype_keys.

(** What [o[k]] evaluates to. *)
Inductive Member : Type :=
| OwnValue (v : V)
| Inherited (k : string)
| Undefined.

Definition js_get (k : string) (o : list (string * V)) : Member :=
  match get_own k o with
  | Some v => OwnValue v
  | None => if mem k Object_prototype_keys then Inherited k else Undefined
  end.

End Records.
Arguments Member V : clear implicits.

Section Values.
Context {Num : Type} {number : JsNumber Num}.

(** [typeof v === 'object'] ([null] and arrays included). *)
Definition typeof_object (v : JValue Num) : bool :=
  match v with
  | JNull | JArray _ | JObject _ => true
  | _ => false
  end.

Definition typeof_string (v : JValue Num) : bool :=
  match v with
  | JString _ => true
  | _ => false
  end.

Definition truthy_value (v : JValue Num) : bool :=
  match v with
  | JNull => false
  | JBool b => b
  | JNumber n => number_truthy n
  | JString s => truthy s
  | JArray _ | JObject _ => true
  end.

(** [k in v] for a value with [typeof v === 'object'] that is not [null]. *)
Definition in_value (k : string) (v : JValue Num) : bool :=
  match v with
  | JObject props => js_in k props
  | JArray items =>
      existsb (fun i => String.eqb k (nat_to_string i)) (seq 0 (length items))
      || mem k Array_builtin_keys
  | _ => false
  end.

(** [v[k]] restricted to own properties of objects (enough for the literal
    keys the loader reads, none of which is inherited). *)
Definition own_field (k : string) (v : JValue Num) : option (JValue Num) :=
  match v with
  | JObject props => get_own k props
  | _ => None
  end.

Definition index_keys (n : nat) : list string := map nat_to_string (seq 0 n).

Definition chars_of (s : string) : list (JValue Num) :=
  map (fun c => JString (String c EmptyString)) (list_ascii_of_string s).

(** [Object.entries(v)], [Object.keys(v)] and [Object.values(v)] for a value
    that is neither [null] nor [undefined]: an array has one entry per index,
    a string one per code unit, a number or a boolean none. *)
Definition entries_of (v : JValue Num) : list (string * JValue Num) :=
  match v with
  | JObject props => props
  | JArray items => combine (index_keys (length items)) items
  | JString s => combine (index_keys (String.length s)) (chars_of s)
  | _ => []
  end.

Definition keys_of (v : JValue Num) : list string := map fst (entries_of v).

Definition values_of (v : JValue Num) : list (JValue Num) := map snd (entries_of v).

(** [v[k]] for an object or an array. *)
Definition get_value (k : string) (v : JValue Num) : Member (JValue Num) :=
  match v with
  | JObject props => js_get k props
  | JArray items =>
      match get_own k (combine (index_keys (length items)) items) with
      | Some item => OwnValue item
      | None => if mem k Array_builtin_keys then Inherited k else Undefined
      end
  | _ => Undefined
  end.

(** The [TypeError] raised by [k in v] on a primitive [v]; the runtime's own
    message also prints [v]. *)
Definition in_operator_TypeError (k : string) : string :=
  "Cannot use 'in' operator to search for '" ++ k ++ "' in a primitive value".

End Values.

End Js.

(* ------------------------------------------------------------------ *)

Module Eff.
Import Js.

Section Monad.
Context {W : Type}.

(** A computation over the world [W] that returns or throws.  The world
    survives a throw, as assignments made before a JavaScript exception do. *)
Definition M (A : Type) : Type := W -> Result A * W.

Definition ret {A : Type} (a : A) : M A := fun w => (Ok a, w).

Definition throw {A : Type} (msg : string) : M A := fun w => (Throw msg, w).

Definition bind {A B : Type} (m : M A) (k : A -> M B) : M B :=
  fun w =>
    match m w with
    | (Ok a, w') => k a w'
    | (Throw msg, w') => (Throw msg, w')
    end.

(** [try { m } catch (error) { h(message of error) }]. *)
Definition try_catch {A : Type} (m : M A) (h : string -> M A) : M A :=
  fun w =>
    match m w with
    | (Ok a, w') => (Ok a, w')
    | (Throw msg, w') => h msg w'
    end.

Definition lift {A : Type} (r : Result A) : M A := fun w => (r, w).

Definition get_world : M W := fun w => (Ok w, w).

Definition modify (f : W -> W) : M unit := fun w => (Ok tt, f w).

(** Run [f] on every element, left to right, collecting the results. *)
Fixpoint traverse {A B : Type} (f : A -> M B) (l : list A) : M (list B) :=
  match l with
  | [] => ret []
  | x :: rest => bind (f x) (fun y => bind (traverse f rest) (fun ys => ret (y :: ys)))
  end.

End Monad.
Arguments M W A : clear implicits.

Declare Scope eff_scope.
Delimit Scope eff_scope with eff.
Notation "x <- m ;; k" := (bind m (fun x => k))
  (at level 100, m at next level, right associativity) : eff_scope.
Notation "m ;;; k" := (bind m (fun _ => k))
  (at level 100, right associativity) : eff_scope.

End Eff.

(* ------------------------------------------------------------------ *)

(** The types of types.ts and the interface of skill-mcp-manager.ts, as the
    tool sources use them. *)
Module Host.
Import Js Eff.

Section Types.
Context {Num : Type}.

(** [McpServerConfig]: raw JSON, cast without validation by the loader. *)
Definition McpServerConfig : Type := JValue Num.

Record LoadedSkill : Type := {
  name : string;
  path : string;
  resolvedPath : string;
  description : string;
  scope : string;
  mcpConfig : option (JValue Num)
}.

(** The [info] and [context] arguments of every Manager operation. *)
Record ClientInfo : Type := {
  serverName : string;
  info_skillName : string;
  sessionID : string
}.

Record ClientContext : Type := {
  config : Member (JValue Num);
  ctx_skillName : string
}.

Record McpTool : Type := {
  tool_name_ : string;
  tool_description : option string;
  inputSchema : option (JValue Num)
}.

Record McpResource : Type := { uri : string }.

Record McpPrompt : Type := { prompt_name_ : string }.

(** One call on the Manager. *)
Inductive ManagerCall : Type :=
| ListTools (info : ClientInfo) (ctx : ClientContext)
| ListResources (info : ClientInfo) (ctx : ClientContext)
| ListPrompts (info : ClientInfo) (ctx : ClientContext)
| CallTool (info : ClientInfo) (ctx : ClientContext) (name : string) (args : JValue Num)
| ReadResource (info : ClientInfo) (ctx : ClientContext) (uri : string)
| GetPrompt (info : ClientInfo) (ctx : ClientContext) (name : string)
    (args : list (string * string))
| DisconnectSession (sid : option string).

(** What the plugin does to its surroundings, in order. *)
Inductive Event : Type :=
| EvGetLoadedSkills
| EvGetSessionID
| EvSetSession (v : option string)
| EvManager (c : ManagerCall).

(** How a call on the Manager ends: its promise resolves, its promise
    rejects, or the call itself throws before a promise exists. *)
Inductive Outcome (A : Type) : Type :=
| Resolved (a : A)
| Rejected (msg : string)
| Thrown (msg : string).

End Types.
Arguments McpServerConfig Num : clear implicits.
Arguments LoadedSkill Num : clear implicits.
Arguments ClientContext Num : clear implicits.
Arguments McpTool Num : clear implicits.
Arguments ManagerCall Num : clear implicits.
Arguments Event Num : clear implicits.
Arguments Resolved {A} a.
Arguments Rejected {A} msg.
Arguments Thrown {A} msg.

(** [SkillMcpManager]: each operation answers from, and may change, the
    Manager's own state [S]. *)
Class SkillMcpManager (Num S : Type) : Type := {
  listTools : ClientInfo -> ClientContext Num -> S -> Outcome (list (McpTool Num)) * S;
  listResources : ClientInfo -> ClientContext Num -> S -> Outcome (list McpResource) * S;
  listPrompts : ClientInfo -> ClientContext Num -> S -> Outcome (list McpPrompt) * S;
  callTool : ClientInfo -> ClientContext Num -> string -> JValue Num -> S ->
             Outcome (JValue Num) * S;
  readResource : ClientInfo -> ClientContext Num -> string -> S -> Outcome (JValue Num) * S;
  getPrompt : ClientInfo -> ClientContext Num -> string -> list (string * string) -> S ->
              Outcome (JValue Num) * S;
  disconnectSession : option string -> S -> Outcome unit * S
}.

(** Built-ins of the runtime and of js-yaml that the sources call. *)
Class Builtins (Num : Type) : Type := {
  JSON_parse : string -> Result (JValue Num);
  JSON_stringify : JValue Num -> string;
  js_String : JValue Num -> Result string;
  Regex : Type;
  RegExp_new : string -> string -> option Regex;
  regex_test : Regex -> string -> bool;
  yaml_load : string -> Result (option (JValue Num));
  trim : string -> string
}.

(** [fs.readFile(p, 'utf-8')] ([None] when it rejects) and [path.join]. *)
Class FileSystem : Type := {
  readFile : string -> option string;
  path_join : string -> string -> string
}.

(** One entry of [fs.readdir(dir, { withFileTypes: true })]. *)
Record Dirent : Type := {
  entry_name : string;
  entry_isDirectory : bool;
  entry_isSymbolicLink : bool
}.

(** What the directory walk of the loader asks of [fs], [path] and [os]:
    [readdir] and [realpath] ([None] when they reject), [access] (whether it
    resolves), [basename(p, ext)], [homedir()] and [process.cwd()]. *)
Class Directories : Type := {
  readdir : string -> option (list Dirent);
  realpath : string -> option string;
  access : string -> bool;
  basename : string -> string -> string;
  homedir : string;
  cwd : string
}.

Section World.
Context {Num S : Type}.

(** The plugin closure of index.ts ([currentSessionID], the Manager) and the
    log of what has been done so far. *)
Record World : Type := {
  currentSessionID : option string;
  manager_state : S;
  log : list (Event Num)
}.

Definition emit (e : Event Num) : M World unit :=
  modify (fun w => {| currentSessionID := currentSessionID w;
                      manager_state := manager_state w;
                      log := log w +++ [e] |}).

Definition set_session (v : option string) : M World unit :=
  bind (emit (EvSetSession v))
       (fun _ => modify (fun w => {| currentSessionID := v;
                                     manager_state := manager_state w;
                                     log := log w |})).

(** Run one Manager operation: log it, let the Manager answer. *)
Definition invoke {A : Type} (c : ManagerCall Num) (op : S -> Outcome A * S)
  : M World (Outcome A) :=
  bind (emit (EvManager c))
       (fun _ w =>
          let '(o, s') := op (manager_state w) in
          (Ok o, {| currentSessionID := currentSessionID w;
                    manager_state := s';
                    log := log w |})).

(** [await p]: a rejection and a synchronous throw both surface as an
    exception at the [await]. *)
Definition await {A : Type} (m : M World (Outcome A)) : M World A :=
  bind m (fun o =>
    match o with
    | Resolved a => ret a
    | Rejected msg => throw msg
    | Thrown msg => throw msg
    end).

(** [() => currentSessionID || 'unknown']. *)
Definition getSessionID : M World string :=
  bind (emit EvGetSessionID) (fun _ =>
  bind get_world (fun w =>
    ret (match currentSessionID w with
         | Some sid => if truthy sid then sid else "unknown"
         | None => "unknown"
         end))).

End World.
Arguments World Num S : clear implicits.

(** The Manager calls found in a log, in order. *)
Definition manager_calls {Num : Type} (l : list (Event Num)) : list (ManagerCall Num) :=
  flat_map (fun e => match e with
                     | EvManager c => [ c ]
                     | _ => []
                     end) l.

End Host.

(* ------------------------------------------------------------------ *)

(** tools/skill-mcp.ts *)
Module SkillMcp.
Import Js Eff Host.
Local Open Scope eff_scope.

(** The arguments of the tool, as its schema declares them. *)
Record Args : Type := {
  mcp_name : string;
  tool_name : option string;
  resource_name : option string;
  prompt_name : option string;
  arguments : option string;
  grep : option string
}.

Inductive OperationType : Type := OpTool | OpResource | OpPrompt.

Record OperationInfo : Type := {
  type : OperationType;
  op_name : string
}.

(** [if (sel) { operations.push({ type, name: sel }) }]. *)
Definition push_if (sel : option string) (t : OperationType) : list OperationInfo :=
  match sel with
  | Some s => if truthy s then [ {| type := t; op_name := s |} ] else []
  | None => []
  end.

(** The [operations] array once the three [if]s have run. *)
Definition operations (args : Args) : list OperationInfo :=
  push_if (tool_name args) OpTool
  +++ push_if (resource_name args) OpResource
  +++ push_if (prompt_name args) OpPrompt.

(** How many of the three selectors pass the test [if (args.x)]. *)
Definition selectors_given (args : Args) : nat :=
  (if truthy_opt (tool_name args) then 1 else 0)
  + (if truthy_opt (resource_name args) then 1 else 0)
  + (if truthy_opt (prompt_name args) then 1 else 0).

Definition missing_operation_message : string :=
  "Missing operation. Exactly one of tool_name, resource_name, or prompt_name must be specified."
  ++ nl ++ nl
  ++ "Examples:" ++ nl
  ++ "  skill_mcp(mcp_name=" ++ dq ++ "sqlite" ++ dq ++ ", tool_name=" ++ dq ++ "query" ++ dq
  ++ ", arguments='{" ++ dq ++ "sql" ++ dq ++ ": " ++ dq ++ "SELECT * FROM users" ++ dq ++ "}')" ++ nl
  ++ "  skill_mcp(mcp_name=" ++ dq ++ "memory" ++ dq ++ ", resource_name=" ++ dq ++ "memory://notes"
  ++ dq ++ ")" ++ nl
  ++ "  skill_mcp(mcp_name=" ++ dq ++ "helper" ++ dq ++ ", prompt_name=" ++ dq ++ "summarize" ++ dq
  ++ ", arguments='{" ++ dq ++ "text" ++ dq ++ ": " ++ dq ++ "..." ++ dq ++ "}')".

(** [sel && `label="${sel}"`], kept by [filter(Boolean)] when truthy. *)
Definition provided_if (sel : option string) (label : string) : list string :=
  match sel with
  | Some s => if truthy s then [ label ++ "=" ++ dq ++ s ++ dq ] else []
  | None => []
  end.

Definition provided (args : Args) : string :=
  join ", " (provided_if (tool_name args) "tool_name"
             +++ provided_if (resource_name args) "resource_name"
             +++ provided_if (prompt_name args) "prompt_name").

Definition multiple_operations_message (args : Args) : string :=
  "Multiple operations specified. Exactly one of tool_name, resource_name, or prompt_name must be provided."
  ++ nl ++ nl
  ++ "Received: " ++ provided args ++ nl ++ nl
  ++ "Use separate calls for each operation.".

Definition validateOperationParams (args : Args) : Result OperationInfo :=
  let ops := operations args in
  if Nat.eqb (length ops) 0 then Throw missing_operation_message
  else if Nat.ltb 1 (length ops) then Throw (multiple_operations_message args)
  else match ops with
       | op :: _ => Ok op
       | [] => Throw missing_operation_message
       end.

Section Tool.
Context {Num : Type} {number : JsNumber Num} {builtins : Builtins Num}.

(** [{ skill, config }], or [null]. *)
Definition Found : Type := (LoadedSkill Num * Member (JValue Num))%type.

Fixpoint findMcpServer (mcpName : string) (skills : list (LoadedSkill Num))
  : Result (option Found) :=
  match skills with
  | [] => Ok None
  | skill :: rest =>
      match mcpConfig skill with
      | Some cfg =>
          if truthy_value cfg then
            match cfg with
            | JObject _ | JArray _ =>
                if in_value mcpName cfg
                then Ok (Some (skill, get_value mcpName cfg))
                else findMcpServer mcpName rest
            | _ => Throw (in_operator_TypeError mcpName)
            end
          else findMcpServer mcpName rest
      | None => findMcpServer mcpName rest
      end
  end.

Definition available_line (serverName skillName : string) : string :=
  "  - " ++ dq ++ serverName ++ dq ++ " from skill " ++ dq ++ skillName ++ dq.

(** The [mcps] array of [formatAvailableMcps]. *)
Definition available_mcps (skills : list (LoadedSkill Num)) : list string :=
  flat_map (fun skill =>
    match mcpConfig skill with
    | Some cfg =>
        if truthy_value cfg
        then map (fun serverName => available_line serverName (name skill)) (keys_of cfg)
        else []
    | None => []
    end) skills.

Definition formatAvailableMcps (skills : list (LoadedSkill Num)) : string :=
  let mcps := available_mcps skills in
  if Nat.ltb 0 (length mcps) then join nl mcps else "  (none found)".

Definition invalid_arguments_message (errorMessage argsJson : string) : string :=
  "Invalid arguments JSON: " ++ errorMessage ++ nl ++ nl
  ++ "Expected a valid JSON object, e.g.: '{" ++ dq ++ "key" ++ dq ++ ": " ++ dq ++ "value" ++ dq
  ++ "}'" ++ nl
  ++ "Received: " ++ argsJson.

Definition parseArguments (argsJson : option string) : Result (JValue Num) :=
  match argsJson with
  | None => Ok (JObject [])
  | Some text =>
      if negb (truthy text) then Ok (JObject [])
      else match JSON_parse text with
           | Ok parsed =>
               if negb (typeof_object parsed)
                  || match parsed with JNull => true | _ => false end
               then Throw (invalid_arguments_message "Arguments must be a JSON object" text)
               else Ok parsed
           | Throw errorMessage => Throw (invalid_arguments_message errorMessage text)
           end
  end.

Definition no_lines_matched (pattern : string) : string :=
  "[grep] No lines matched pattern: " ++ pattern.

Definition applyGrepFilter (output : string) (pattern : option string) : string :=
  match pattern with
  | None => output
  | Some p =>
      if negb (truthy p) then output
      else match RegExp_new p "i" with
           | Some regex =>
               let lines := split_nl output in
               let filtered := filter (regex_test regex) lines in
               if Nat.ltb 0 (length filtered) then join nl filtered
               else no_lines_matched p
           | None => output
           end
  end.

Definition not_found_message (mcpName : string) (skills : list (LoadedSkill Num)) : string :=
  "MCP server " ++ dq ++ mcpName ++ dq ++ " not found." ++ nl ++ nl
  ++ "Available MCP servers in loaded skills:" ++ nl
  ++ formatAvailableMcps skills ++ nl ++ nl
  ++ "Hint: Load the skill first using the 'skill' tool, then call skill_mcp.".

(** [for (const [key, value] of Object.entries(parsedArgs)) stringArgs[key] = String(value)]:
    every value is converted in order; the assignment to the key [__proto__]
    of a fresh object literal goes to the inherited setter and leaves no
    property behind. *)
Fixpoint string_entries (entries : list (string * JValue Num))
  : Result (list (string * string)) :=
  match entries with
  | [] => Ok []
  | (key, value) :: rest =>
      match js_String value with
      | Ok s =>
          match string_entries rest with
          | Ok tail => Ok (if String.eqb key "__proto__" then tail else (key, s) :: tail)
          | Throw msg => Throw msg
          end
      | Throw msg => Throw msg
      end
  end.

(** Every skill carries no configuration or a plain object, as the type
    [Record<string, McpServerConfig>] of [mcpConfig] says. *)
Definition plain_configs (skills : list (LoadedSkill Num)) : Prop :=
  Forall (fun skill => match mcpConfig skill with
                       | None | Some (JObject _) => True
                       | Some _ => False
                       end) skills.

(** The name is declared by no skill. *)
Definition undeclared (mcpName : string) (skills : list (LoadedSkill Num)) : Prop :=
  forall skill props,
    In skill skills -> mcpConfig skill = Some (JObject props) ->
    ~ In mcpName (Object_keys props).


Section Execute.
Context {S : Type} {manager : SkillMcpManager Num S}.

(** [execute(args)] of the [skill_mcp] tool; [skills] is what
    [getLoadedSkills()] returns. *)
Definition execute (skills : list (LoadedSkill Num)) (args : Args)
  : M (World Num S) string :=
  operation <- lift (validateOperationParams args) ;;
  emit EvGetLoadedSkills ;;;
  found <- lift (findMcpServer (mcp_name args) skills) ;;
  match found with
  | None => throw (not_found_message (mcp_name args) skills)
  | Some (skill, cfg) =>
      sid <- getSessionID ;;
      let info := {| serverName := mcp_name args;
                     info_skillName := name skill;
                     sessionID := sid |} in
      let context := {| config := cfg; ctx_skillName := name skill |} in
      parsedArgs <- lift (parseArguments (arguments args)) ;;
      output <-
        match type operation with
        | OpTool =>
            result <- await (invoke (CallTool info context (op_name operation) parsedArgs)
                                    (callTool info context (op_name operation) parsedArgs)) ;;
            ret (JSON_stringify result)
        | OpResource =>
            result <- await (invoke (ReadResource info context (op_name operation))
                                    (readResource info context (op_name operation))) ;;
            ret (JSON_stringify result)
        | OpPrompt =>
            stringArgs <- lift (string_entries (entries_of parsedArgs)) ;;
            result <- await (invoke (GetPrompt info context (op_name operation) stringArgs)
                                    (getPrompt info context (op_name operation) stringArgs)) ;;
            ret (JSON_stringify result)
        end ;;
      ret (applyGrepFilter output (grep args))
  end.

End Execute.
End Tool.

End SkillMcp.

(* ------------------------------------------------------------------ *)

(** tools/skill.ts *)
Module SkillTool.
Import Js Eff Host.
Local Open Scope eff_scope.

Section Listing.
Context {Num : Type} {number : JsNumber Num} {builtins : Builtins Num}.

(** The lines pushed for one tool.  An absent [inputSchema] makes
    [JSON.stringify] return [undefined], which [join] prints as nothing. *)
Definition render_tool (t : McpTool Num) : list string :=
  [ "#### `" ++ tool_name_ t ++ "`" ]
  +++ match tool_description t with
      | Some d => if truthy d then [ d ] else []
      | None => []
      end
  +++ [ EmptyString;
        "**inputSchema:**";
        "```json";
        match inputSchema t with
        | Some schema => JSON_stringify schema
        | None => EmptyString
        end;
        "```";
        EmptyString ].

(** The lines pushed inside the [try] once the three lists are known. *)
Definition render_capabilities (tools : list (McpTool Num))
  (resources : list McpResource) (prompts : list McpPrompt) : list string :=
  (if Nat.ltb 0 (length tools)
   then [ "**Tools:**"; EmptyString ] +++ flat_map render_tool tools
   else [])
  +++ (if Nat.ltb 0 (length resources)
       then [ "**Resources**: " ++ join ", " (map uri resources) ]
       else [])
  +++ (if Nat.ltb 0 (length prompts)
       then [ "**Prompts**: " ++ join ", " (map prompt_name_ prompts) ]
       else [])
  +++ (if Nat.eqb (length tools) 0 && Nat.eqb (length resources) 0
          && Nat.eqb (length prompts) 0
       then [ "*No capabilities discovered*" ]
       else []).

Definition failure_note (errorMessage : string) : string :=
  "*Failed to connect: " ++ first_line errorMessage ++ "*".

Definition invoke_hint (serverName : string) : string :=
  "Use `skill_mcp` tool with `mcp_name=" ++ dq ++ serverName ++ dq ++ "` to invoke.".

(** The lines that frame the block of one server. *)
Definition framed (serverName : string) (block : list string) : Prop :=
  exists body,
    block = [ "### " ++ serverName; EmptyString ]
            +++ body
            +++ [ EmptyString; invoke_hint serverName; EmptyString ].

(** What [.catch(() => [])] makes of the outcome of a discovery call. *)
Definition caught {A : Type} (o : Outcome (list A)) : Outcome (list A) :=
  match o with
  | Rejected _ => Resolved []
  | _ => o
  end.

(** The Manager that answers as [m] does, except that a discovery promise
    that [m] rejects resolves to the empty list. *)
Definition forgiving {S : Type} (m : SkillMcpManager Num S) : SkillMcpManager Num S := {|
  listTools := fun info ctx s => let '(o, s') := listTools info ctx s in (caught o, s');
  listResources := fun info ctx s => let '(o, s') := listResources info ctx s in (caught o, s');
  listPrompts := fun info ctx s => let '(o, s') := listPrompts info ctx s in (caught o, s');
  callTool := callTool;
  readResource := readResource;
  getPrompt := getPrompt;
  disconnectSession := disconnectSession
|}.

Section WithManager.
Context {S : Type} {manager : SkillMcpManager Num S}.

(** [manager.listX(info, context).catch(() => [])]: a rejected promise
    becomes the empty list; a throw of the call itself is not a promise and
    escapes the [.catch]. *)
Definition discover {A : Type} (c : ManagerCall Num) (op : S -> Outcome (list A) * S)
  : M (World Num S) (list A) :=
  o <- invoke c op ;;
  match o with
  | Resolved found => ret found
  | Rejected _ => ret []
  | Thrown msg => throw msg
  end.

(** The message of the first of the three discovery calls of a server to
    throw before returning a promise, if one does; the calls are made in the
    order of the array literal given to [Promise.all]. *)
Definition first_throw (info : ClientInfo) (context : ClientContext Num) (s : S)
  : option string :=
  match listTools info context s with
  | (Thrown msg, _) => Some msg
  | (_, s1) =>
      match listResources info context s1 with
      | (Thrown msg, _) => Some msg
      | (_, s2) =>
          match listPrompts info context s2 with
          | (Thrown msg, _) => Some msg
          | _ => None
          end
      end
  end.

(** One turn of the loop over [Object.entries(skill.mcpConfig)]: the lines it
    pushes onto [sections]. *)
Definition server_section (skill : LoadedSkill Num) (sessionID : string)
  (entry : string * JValue Num) : M (World Num S) (list string) :=
  let '(serverName, cfg) := entry in
  let info := {| serverName := serverName;
                 info_skillName := name skill;
                 sessionID := sessionID |} in
  let context := {| config := OwnValue cfg; ctx_skillName := name skill |} in
  body <- try_catch
            (tools <- discover (ListTools info context) (listTools info context) ;;
             resources <- discover (ListResources info context) (listResources info context) ;;
             prompts <- discover (ListPrompts info context) (listPrompts info context) ;;
             ret (render_capabilities tools resources prompts))
            (fun errorMessage => ret [ failure_note errorMessage ]) ;;
  ret ([ "### " ++ serverName; EmptyString ]
       +++ body
       +++ [ EmptyString; invoke_hint serverName; EmptyString ]).

(** The [sections] array at the end of [formatMcpCapabilities]. *)
Definition mcp_sections (skill : LoadedSkill Num) (sessionID : string)
  (cfg : JValue Num) : M (World Num S) (list string) :=
  blocks <- traverse (server_section skill sessionID) (entries_of cfg) ;;
  ret ([ EmptyString; "## Available MCP Servers"; EmptyString ] +++ List.concat blocks).

Definition formatMcpCapabilities (skill : LoadedSkill Num) (sessionID : string)
  : M (World Num S) (option string) :=
  match mcpConfig skill with
  | None => ret None
  | Some cfg =>
      if negb (truthy_value cfg) || Nat.eqb (length (keys_of cfg)) 0 then ret None
      else sections <- mcp_sections skill sessionID cfg ;;
           ret (Some (join nl sections))
  end.

End WithManager.
End Listing.

(** The three discovery calls made for one declared server, in order. *)
Definition discovery_calls {Num : Type} (skill : LoadedSkill Num) (sessionID : string)
  (entry : string * JValue Num) : list (ManagerCall Num) :=
  let info := {| serverName := fst entry;
                 info_skillName := name skill;
                 sessionID := sessionID |} in
  let context := {| config := OwnValue (snd entry); ctx_skillName := name skill |} in
  [ ListTools info context; ListResources info context; ListPrompts info context ].

(** The servers that [formatMcpCapabilities] goes through. *)
Definition listed_servers {Num : Type} {number : JsNumber Num} (skill : LoadedSkill Num)
  : list (string * JValue Num) :=
  match mcpConfig skill with
  | Some cfg => if truthy_value cfg then entries_of cfg else []
  | None => []
  end.

Definition TOOL_DESCRIPTION_NO_SKILLS : string :=
  "Load a skill to get detailed instructions for a specific task. No skills are currently available.".

Definition TOOL_DESCRIPTION_PREFIX : string :=
  "Load a skill to get detailed instructions for a specific task." ++ nl ++ nl
  ++ "Skills provide specialized knowledge and step-by-step guidance." ++ nl
  ++ "Use this when a task matches an available skill's description.".

Record SkillInfo : Type := {
  info_name : string;
  info_description : string;
  info_scope : string
}.

Definition loadedSkillToInfo {Num : Type} (skill : LoadedSkill Num) : SkillInfo :=
  {| info_name := name skill;
     info_description := description skill;
     info_scope := scope skill |}.

(** The four lines of one [<skill>] element. *)
Definition skill_xml (skill : SkillInfo) : string :=
  join nl [ "  <skill>";
            "    <name>" ++ info_name skill ++ "</name>";
            "    <description>" ++ info_description skill ++ "</description>";
            "  </skill>" ].

Definition formatSkillsXml (skills : list SkillInfo) : string :=
  if Nat.eqb (length skills) 0 then EmptyString
  else
    let skillsXml := join nl (map skill_xml skills) in
    nl ++ nl ++ "<available_skills>" ++ nl ++ skillsXml ++ nl ++ "</available_skills>".

(** The two lines by which a skill is advertised in the description. *)
Definition advertisement (skillName skillDescription : string) : string :=
  "    <name>" ++ skillName ++ "</name>" ++ nl
  ++ "    <description>" ++ skillDescription ++ "</description>".

(** The [description] that [createSkillTool] gives the tool. *)
Definition tool_description {Num : Type} (skills : list (LoadedSkill Num)) : string :=
  let skillInfos := map loadedSkillToInfo skills in
  if Nat.eqb (length skillInfos) 0 then TOOL_DESCRIPTION_NO_SKILLS
  else TOOL_DESCRIPTION_PREFIX ++ formatSkillsXml skillInfos.

End SkillTool.

(* ------------------------------------------------------------------ *)

(** index.ts *)
Module Plugin.
Import Js Eff Host.
Local Open Scope eff_scope.

(** The notifications of the host that the hook looks at; each session
    notification carries the session it is about. *)
Inductive HostEvent : Type :=
| SessionCreated (id : string)
| SessionDeleted (id : string)
| OtherEvent (type : string).

Section Hook.
Context {Num S : Type} {manager : SkillMcpManager Num S}.

(** The [event] hook. *)
Definition event (e : HostEvent) : M (World Num S) unit :=
  match e with
  | SessionCreated id => set_session (Some id)
  | _ => ret tt
  end ;;;
  w <- get_world ;;
  match e with
  | SessionDeleted _ =>
      if truthy_opt (currentSessionID w) then
        await (invoke (DisconnectSession (currentSessionID w))
                      (disconnectSession (currentSessionID w))) ;;;
        set_session None
      else ret tt
  | _ => ret tt
  end.

(** The hook run over a sequence of notifications, one after the other. *)
Fixpoint deliver (es : list HostEvent) (w : World Num S) : World Num S :=
  match es with
  | [] => w
  | e :: rest => deliver rest (snd (event e w))
  end.

End Hook.

(** The ids of the sessions whose creation is announced in [es]. *)
Definition created_ids (es : list HostEvent) : list string :=
  flat_map (fun e => match e with
                     | SessionCreated id => [ id ]
                     | _ => []
                     end) es.

(** The arguments of the [disconnectSession] calls found in a log. *)
Definition disconnect_calls {Num : Type} (l : list (Event Num)) : list (option string) :=
  flat_map (fun e => match e with
                     | EvManager (DisconnectSession sid) => [ sid ]
                     | _ => []
                     end) l.

End Plugin.

(* ------------------------------------------------------------------ *)

(** utils/frontmatter.ts *)
Module Frontmatter.
Import Js Host.

Definition CR : ascii := ascii_of_nat 13.

(** [s] without its prefix [p], when it has it. *)
Fixpoint strip_prefix (p s : string) : option string :=
  match p, s with
  | EmptyString, _ => Some s
  | String a p', String b s' => if Ascii.eqb a b then strip_prefix p' s' else None
  | String _ _, EmptyString => None
  end.

(** A line break as the expression [\r?\n] takes it. *)
Definition line_break (br : string) : Prop :=
  br = nl \/ br = String CR nl.

(** [\r?\n] followed by [tail] at the head of [s]; what follows it. *)
Definition line_break_then (tail s : string) : option string :=
  match strip_prefix (String CR (String LF tail)) s with
  | Some rest => Some rest
  | None => strip_prefix (String LF tail) s
  end.

(** [([\s\S]*?)\r?\n---]: the shortest group after which the closing fence
    matches, and the text after that fence. *)
Fixpoint lazy_group (s : string) : option (string * string) :=
  match line_break_then "---" s with
  | Some rest => Some (EmptyString, rest)
  | None =>
      match s with
      | EmptyString => None
      | String c s' =>
          match lazy_group s' with
          | Some (group, rest) => Some (String c group, rest)
          | None => None
          end
      end
  end.

(** [content.match(/^---\r?\n([\s\S]*?)\r?\n---/)]: group 1 and
    [content.slice(match[0].length)]. *)
Definition frontmatterMatch (content : string) : option (string * string) :=
  match strip_prefix "---" content with
  | Some after_fence =>
      match line_break_then EmptyString after_fence with
      | Some inner => lazy_group inner
      | None => None
      end
  | None => None
  end.

Section Parse.
Context {Num : Type} {number : JsNumber Num} {builtins : Builtins Num}.

Record ParsedFrontmatter : Type := {
  data : JValue Num;
  body : string
}.

Definition parseFrontmatter (content : string) : ParsedFrontmatter :=
  match frontmatterMatch content with
  | None => {| data := JObject []; body := content |}
  | Some (yaml, rest) =>
      match yaml_load yaml with
      | Ok loaded =>
          {| data := match loaded with
                     | Some d => if truthy_value d then d else JObject []
                     | None => JObject []
                     end;
             body := trim rest |}
      | Throw _ => {| data := JObject []; body := content |}
      end
  end.

(** [key in parsed && parsed[key]] for [parsed] an object or an array: the
    member, when it is there and truthy.  It is asked for [mcpServers] and
    [mcp] only, which no object inherits. *)
Definition truthy_member (key : string) (parsed : JValue Num) : option (JValue Num) :=
  if in_value key parsed then
    match get_value key parsed with
    | OwnValue v => if truthy_value v then Some v else None
    | _ => None
    end
  else None.

Definition parseSkillMcpConfigFromFrontmatter (content : string) : option (JValue Num) :=
  match frontmatterMatch content with
  | None => None
  | Some (yaml, _) =>
      match yaml_load yaml with
      | Ok (Some parsed) =>
          if truthy_value parsed && typeof_object parsed
          then truthy_member "mcp" parsed
          else None
      | Ok None => None
      | Throw _ => None
      end
  end.

End Parse.
Arguments ParsedFrontmatter Num : clear implicits.

End Frontmatter.

(* ------------------------------------------------------------------ *)

(** skill-loader.ts *)
Module SkillLoader.
Import Js Host Frontmatter.

Section Loader.
Context {Num : Type} {number : JsNumber Num} {builtins : Builtins Num} {fs : FileSystem}.

(** A key that is neither inherited nor an index is in an object or array
    exactly when it is an own property of an object. *)
Definition literal_key (key : string) : Prop :=
  mem key Array_builtin_keys = false
  /\ match key with
     | String c _ => Nat.leb 48 (nat_of_ascii c) && Nat.leb (nat_of_ascii c) 57 = false
     | EmptyString => True
     end.

(** [v && typeof v === 'object' && 'command' in v]. *)
Definition declares_command (v : JValue Num) : bool :=
  truthy_value v && typeof_object v && in_value "command" v.

(** The three [if]s of [loadMcpJsonFromDir] on the parsed file. *)
Definition recognize (parsed : JValue Num) : option (JValue Num) :=
  let is_object := truthy_value parsed && typeof_object parsed in
  match (if is_object then truthy_member "mcpServers" parsed else None) with
  | Some servers => Some servers
  | None =>
      match (if is_object then truthy_member "mcp" parsed else None) with
      | Some servers => Some servers
      | None =>
          if is_object && negb (in_value "mcpServers" parsed)
             && negb (in_value "mcp" parsed)
          then
            let hasCommandField := existsb declares_command (values_of parsed) in
            if hasCommandField then Some parsed else None
          else None
      end
  end.

Definition loadMcpJsonFromDir (skillDir : string) : option (JValue Num) :=
  let mcpJsonPath := path_join skillDir "mcp.json" in
  match readFile mcpJsonPath with
  | Some content =>
      match JSON_parse content with
      | Ok parsed => recognize parsed
      | Throw _ => None
      end
  | None => None
  end.

(** [a || b] on two optional configurations. *)
Definition or_else (a b : option (JValue Num)) : option (JValue Num) :=
  match a with
  | Some v => if truthy_value v then Some v else b
  | None => b
  end.

(** [data[key] || fallback] for a front-matter field that SkillFrontmatter
    types as a string, read into the string fields of [LoadedSkill]: it is
    the code's value whenever the field is absent, falsy or a string (see
    [typed_frontmatter]).  A truthy value of another type, which YAML can
    produce and the type assertion lets through, is kept as it is by the
    code; a string field cannot hold it. *)
Definition string_field (key : string) (d : JValue Num) (fallback : string) : string :=
  match own_field key d with
  | Some (JString s) => if truthy s then s else fallback
  | _ => fallback
  end.

(** What a field declared [string | undefined] holds when the front matter
    keeps to its declared type, or departs from it only by a falsy value
    that [||] replaces anyway. *)
Definition string_or_falsy (v : option (JValue Num)) : Prop :=
  match v with
  | None => True
  | Some (JString _) => True
  | Some other => truthy_value other = false
  end.

(** The front-matter data has [name] and [description] as SkillFrontmatter
    declares them. *)
Definition typed_frontmatter (d : JValue Num) : Prop :=
  string_or_falsy (own_field "name" d) /\ string_or_falsy (own_field "description" d).

(** Every file that can be read has front matter of the declared type. *)
Definition typed_skill_files : Prop :=
  forall p content,
    readFile p = Some content -> typed_frontmatter (data (parseFrontmatter content)).

(** [loadSkillFromPath]; [None] is the [null] of the [catch].  The lazy
    content loader of the result is left out. *)
Definition loadSkillFromPath (skillPath resolvedPath defaultName scope : string)
  : option (LoadedSkill Num) :=
  match readFile skillPath with
  | Some content =>
      let d := data (parseFrontmatter content) in
      let frontmatterMcp := parseSkillMcpConfigFromFrontmatter content in
      let mcpJsonMcp := loadMcpJsonFromDir resolvedPath in
      let mcpConfig := or_else mcpJsonMcp frontmatterMcp in
      let skillName := string_field "name" d defaultName in
      let originalDescription := string_field "description" d EmptyString in
      let formattedDescription := "(" ++ scope ++ " - Skill) " ++ originalDescription in
      Some {| name := skillName;
              path := skillPath;
              resolvedPath := resolvedPath;
              description := formattedDescription;
              scope := scope;
              mcpConfig := mcpConfig |}
  | None => None
  end.

End Loader.

(** [s.endsWith(suffix)]. *)
Definition endsWith (s suffix : string) : bool :=
  Nat.leb (String.length suffix) (String.length s)
  && String.eqb (substring (String.length s - String.length suffix)
                           (String.length suffix) s) suffix.

Definition isMarkdownFile (entry : Dirent) : bool := endsWith (entry_name entry) ".md".

(** [skillMap.set(key, value)] on a [Map] kept as its entries in insertion
    order: a key already there keeps its place and takes the new value. *)
Fixpoint map_set {V : Type} (key : string) (value : V) (m : list (string * V))
  : list (string * V) :=
  match m with
  | [] => [ (key, value) ]
  | (k, v) :: rest =>
      if String.eqb key k then (key, value) :: rest
      else (k, v) :: map_set key value rest
  end.

Section Discovery.
Context {Num : Type} {number : JsNumber Num} {builtins : Builtins Num}.
Context {fs : FileSystem} {dirs : Directories}.

Definition resolveSymlinkAsync (entryPath : string) : string :=
  match realpath entryPath with
  | Some realPath => realPath
  | None => entryPath
  end.

(** One turn of the loop of [loadSkillsFromDir]: the skill it pushes, if any. *)
Definition load_entry (skillsDir scope : string) (entry : Dirent)
  : option (LoadedSkill Num) :=
  if startsWith (entry_name entry) "." then None
  else
    let entryPath := path_join skillsDir (entry_name entry) in
    if entry_isDirectory entry || entry_isSymbolicLink entry then
      let resolvedPath := resolveSymlinkAsync entryPath in
      let dirName := entry_name entry in
      let skillMdPath := path_join resolvedPath "SKILL.md" in
      if access skillMdPath
      then loadSkillFromPath skillMdPath resolvedPath dirName scope
      else
        let namedSkillMdPath := path_join resolvedPath (dirName ++ ".md") in
        if access namedSkillMdPath
        then loadSkillFromPath namedSkillMdPath resolvedPath dirName scope
        else None
    else if isMarkdownFile entry then
      let skillName := basename (entry_name entry) ".md" in
      loadSkillFromPath entryPath skillsDir skillName scope
    else None.

Definition loadSkillsFromDir (skillsDir scope : string) : list (LoadedSkill Num) :=
  let entries := match readdir skillsDir with
                 | Some found => found
                 | None => []
                 end in
  flat_map (fun entry => match load_entry skillsDir scope entry with
                         | Some skill => [ skill ]
                         | None => []
                         end) entries.

Definition discoverOpencodeGlobalSkills : list (LoadedSkill Num) :=
  let opencodeSkillsDir :=
    path_join (path_join (path_join homedir ".config") "opencode") "skill" in
  loadSkillsFromDir opencodeSkillsDir "opencode".

Definition discoverOpencodeProjectSkills : list (LoadedSkill Num) :=
  let opencodeProjectDir := path_join (path_join cwd ".opencode") "skill" in
  loadSkillsFromDir opencodeProjectDir "opencode-project".

(** The [skillMap] after the skills of [skills] have been set, in order. *)
Definition set_all (skills : list (LoadedSkill Num))
  (skillMap : list (string * LoadedSkill Num)) : list (string * LoadedSkill Num) :=
  fold_left (fun m skill => map_set (name skill) skill m) skills skillMap.

(** The de-duplication of [discoverSkills]: global skills first, project
    skills over them, then [Array.from(skillMap.values())]. *)
Definition dedupe (projectSkills globalSkills : list (LoadedSkill Num))
  : list (LoadedSkill Num) :=
  map snd (set_all projectSkills (set_all globalSkills [])).

Definition discoverSkills : list (LoadedSkill Num) :=
  dedupe discoverOpencodeProjectSkills discoverOpencodeGlobalSkills.

End Discovery.

End SkillLoader.

(* ------------------------------------------------------------------ *)

(** utils/env-vars.ts *)
Module EnvVars.
Import Js Host.

(** The failure of the configuration taxonomy that [normalizeCommand] raises. *)
Inductive ConfigError : Type :=
| InvalidConfiguration (message : string).

Definition invalid_command_message : string :=
  "Invalid MCP command configuration: command must be a string or array".

Section Normalize.
Context {Num : Type} {number : JsNumber Num}.

(** Modelled from the spec: the coercion to string that the Command
    Normalizer applies to every element (spec 4.1: each element coerced to
    string, numeric values stringified).  utils/env-vars.ts is not among the
    sources; the runtime's [String(v)] is followed for the other kinds. *)
Fixpoint coerce (v : JValue Num) : string :=
  match v with
  | JNull => "null"
  | JBool true => "true"
  | JBool false => "false"
  | JNumber n => number_to_string n
  | JString s => s
  | JArray items =>
      join "," (map (fun item => match item with
                                 | JNull => EmptyString
                                 | _ => coerce item
                                 end) items)
  | JObject _ => "[object Object]"
  end.

(** Modelled from the spec: the first element of an array-form command,
    coerced to string; an empty array has no first element and the coercion
    of the absent value reads [undefined]. *)
Definition first_coerced (items : list (JValue Num)) : string :=
  match items with
  | e :: _ => coerce e
  | [] => "undefined"
  end.

(** Modelled from the spec: the arguments of a string-form command come from
    the [args] field if present, each element coerced to string, otherwise
    the empty sequence (spec 4.1, rule 2). *)
Definition args_field (cfg : McpServerConfig Num) : list string :=
  match own_field "args" cfg with
  | Some (JArray items) => map coerce items
  | _ => []
  end.

(** Modelled from the spec: normalizeCommand of utils/env-vars.ts, of which
    only the tests are among the sources.  Spec 4.1, rules applied in order:
    (1) an array command gives its first element as executable and the
    remaining elements as arguments, [args] being ignored; (2) a non-empty
    string command is the executable, with the arguments of [args]; (3)
    anything else fails with InvalidConfiguration. *)
Definition normalizeCommand (cfg : McpServerConfig Num)
  : ConfigError + (string * list string) :=
  match own_field "command" cfg with
  | Some (JArray items) => inr (first_coerced items, map coerce (tl items))
  | Some (JString s) =>
      if truthy s then inr (s, args_field cfg)
      else inl (InvalidConfiguration invalid_command_message)
  | _ => inl (InvalidConfiguration invalid_command_message)
  end.

End Normalize.

End EnvVars.

(* ------------------------------------------------------------------ *)

(** Concrete runtimes, Managers and inputs on which the definitions run. *)
Module Fixtures.
Import Js Eff Host.

(** Numbers: the non-negative integers, printed in decimal. *)
#[export] Instance N_number : JsNumber N := {
  number_to_string := fun n => NilZero.string_of_uint (N.to_uint n);
  number_truthy := fun n => negb (N.eqb n 0)
}.

Definition lower_ascii (c : ascii) : ascii :=
  let n := nat_of_ascii c in
  if Nat.leb 65 n && Nat.leb n 90 then ascii_of_nat (n + 32) else c.

Fixpoint lower (s : string) : string :=
  match s with
  | EmptyString => EmptyString
  | String c rest => String (lower_ascii c) (lower rest)
  end.

(** A small regular-expression engine: a pattern is a literal to be found
    anywhere in the line, ignoring case under the flag [i]; a pattern with a
    parenthesis is refused, as an unbalanced group is. *)
Definition literal_RegExp (pattern flags : string) : option string :=
  if includes pattern "(" then None
  else Some (if includes flags "i" then lower pattern else pattern).

Definition literal_test (regex line : string) : bool := includes (lower line) regex.

(** A JSON reader that knows three texts. *)
Definition tiny_JSON_parse (text : string) : Result (JValue N) :=
  if String.eqb text "{}" then Ok (JObject [])
  else if String.eqb text "null" then Ok JNull
  else if String.eqb text "7" then Ok (JNumber 7%N)
  else Throw "Unexpected token".

Definition hex_digit (n : nat) : string :=
  String (ascii_of_nat (if Nat.ltb n 10 then 48 + n else 87 + n)) EmptyString.

(** One character inside a JSON string: the quote, the backslash and the
    control characters are escaped as [JSON.stringify] escapes them. *)
Definition json_escape (c : ascii) : string :=
  let n := nat_of_ascii c in
  if Nat.eqb n 34 then "\" ++ dq
  else if Nat.eqb n 92 then "\\"
  else if Nat.eqb n 8 then "\b"
  else if Nat.eqb n 9 then "\t"
  else if Nat.eqb n 10 then "\n"
  else if Nat.eqb n 12 then "\f"
  else if Nat.eqb n 13 then "\r"
  else if Nat.ltb n 32 then "\u00" ++ hex_digit (n / 16) ++ hex_digit (n mod 16)
  else String c EmptyString.

Definition json_quote (s : string) : string :=
  dq ++ String.concat EmptyString (map json_escape (list_ascii_of_string s)) ++ dq.

(** [JSON.stringify(v, null, 2)] at the nesting given by [indent]: an empty
    array or object stays on one line, the members of any other are put one
    per line, two spaces deeper. *)
Fixpoint json_pretty (indent : string) (v : JValue N) : string :=
  let inner := indent ++ "  " in
  match v with
  | JNull => "null"
  | JBool true => "true"
  | JBool false => "false"
  | JNumber n => number_to_string n
  | JString s => json_quote s
  | JArray [] => "[]"
  | JArray items =>
      "[" ++ nl
      ++ join ("," ++ nl) (map (fun item => inner ++ json_pretty inner item) items)
      ++ nl ++ indent ++ "]"
  | JObject [] => "{}"
  | JObject props =>
      "{" ++ nl
      ++ join ("," ++ nl)
              (map (fun prop => inner ++ json_quote (fst prop) ++ ": "
                                ++ json_pretty inner (snd prop)) props)
      ++ nl ++ indent ++ "}"
  end.

#[export] Instance tiny_builtins : Builtins N := {
  JSON_parse := tiny_JSON_parse;
  JSON_stringify := json_pretty EmptyString;
  js_String := fun v => Ok (EnvVars.coerce v);
  Regex := string;
  RegExp_new := literal_RegExp;
  regex_test := literal_test;
  yaml_load := fun _ => Ok None;
  trim := fun s => s
}.

(** A Manager whose every promise rejects (no server can be reached). *)
Definition unreachable : string := "connect ECONNREFUSED".

Definition rejecting_manager : SkillMcpManager N unit := {|
  listTools := fun _ _ s => (Rejected unreachable, s);
  listResources := fun _ _ s => (Rejected unreachable, s);
  listPrompts := fun _ _ s => (Rejected unreachable, s);
  callTool := fun _ _ _ _ s => (Rejected unreachable, s);
  readResource := fun _ _ _ s => (Rejected unreachable, s);
  getPrompt := fun _ _ _ _ s => (Rejected unreachable, s);
  disconnectSession := fun _ s => (Resolved tt, s)
|}.

(** A Manager whose servers answer and expose nothing. *)
Definition silent_manager : SkillMcpManager N unit := {|
  listTools := fun _ _ s => (Resolved [], s);
  listResources := fun _ _ s => (Resolved [], s);
  listPrompts := fun _ _ s => (Resolved [], s);
  callTool := fun _ _ _ _ s => (Resolved (JObject []), s);
  readResource := fun _ _ _ s => (Resolved (JObject []), s);
  getPrompt := fun _ _ _ _ s => (Resolved (JObject []), s);
  disconnectSession := fun _ s => (Resolved tt, s)
|}.

(** A Manager whose discovery calls throw before returning a promise. *)
Definition throwing_manager : SkillMcpManager N unit := {|
  listTools := fun _ _ s => (Thrown ("spawn failed" ++ nl ++ "at connect"), s);
  listResources := fun _ _ s => (Thrown "spawn failed", s);
  listPrompts := fun _ _ s => (Thrown "spawn failed", s);
  callTool := fun _ _ _ _ s => (Thrown "spawn failed", s);
  readResource := fun _ _ _ s => (Thrown "spawn failed", s);
  getPrompt := fun _ _ _ _ s => (Thrown "spawn failed", s);
  disconnectSession := fun _ s => (Thrown "spawn failed", s)
|}.

Definition fresh_world : World N unit :=
  {| currentSessionID := None; manager_state := tt; log := [] |}.

Definition world_in_session (sid : string) : World N unit :=
  {| currentSessionID := Some sid; manager_state := tt; log := [] |}.

Definition sqlite_config : JValue N :=
  JObject [ ("command", JArray [ JString "npx"; JString "-y"; JString "@x/sqlite" ]) ].

Definition memory_config : JValue N :=
  JObject [ ("command", JString "node"); ("args", JArray [ JString "memory.js" ]) ].

Definition skill_with (skillName : string) (cfg : option (JValue N)) : LoadedSkill N :=
  {| name := skillName;
     path := "/skills/" ++ skillName ++ "/SKILL.md";
     resolvedPath := "/skills/" ++ skillName;
     description := "(opencode - Skill) ";
     scope := "opencode";
     mcpConfig := cfg |}.

Definition db_skill : LoadedSkill N :=
  skill_with "db" (Some (JObject [ ("sqlite", sqlite_config) ])).

Definition notes_skill : LoadedSkill N :=
  skill_with "notes" (Some (JObject [ ("memory", memory_config) ])).

Definition plain_skill : LoadedSkill N := skill_with "plain" None.

Definition call (server : string) (tool resource prompt : option string)
  (grep : option string) : SkillMcp.Args :=
  {| SkillMcp.mcp_name := server;
     SkillMcp.tool_name := tool;
     SkillMcp.resource_name := resource;
     SkillMcp.prompt_name := prompt;
     SkillMcp.arguments := None;
     SkillMcp.grep := grep |}.

(** A file system holding one skill directory with both a front-matter
    configuration and a sibling mcp.json. *)
Definition skill_md : string :=
  "---" ++ nl ++ "name: db" ++ nl ++ "---" ++ nl ++ "Use the database.".

Definition one_skill_fs : FileSystem := {|
  readFile := fun p =>
    if String.eqb p "/skills/db/SKILL.md" then Some skill_md
    else if String.eqb p "/skills/db/mcp.json" then Some "{}"
    else None;
  path_join := fun dir file => dir ++ "/" ++ file
|}.

(** Built-ins whose JSON reader and YAML loader return fixed values. *)
Definition builtins_reading (json : JValue N) (yaml : option (JValue N)) : Builtins N := {|
  JSON_parse := fun _ => Ok json;
  JSON_stringify := json_pretty EmptyString;
  js_String := fun v => Ok (EnvVars.coerce v);
  Regex := string;
  RegExp_new := literal_RegExp;
  regex_test := literal_test;
  yaml_load := fun _ => Ok yaml;
  trim := fun s => s
|}.

(** The sibling file and the front matter of the skill [db], each with a
    configuration of its own. *)
Definition sibling_servers : JValue N := JObject [ ("sqlite", sqlite_config) ].

Definition sibling_json : JValue N := JObject [ ("mcpServers", sibling_servers) ].

Definition frontmatter_yaml : JValue N :=
  JObject [ ("name", JString "db"); ("mcp", JObject [ ("memory", memory_config) ]) ].

Definition reading_builtins : Builtins N :=
  builtins_reading sibling_json (Some frontmatter_yaml).

Definition loaded_db_skill : LoadedSkill N :=
  {| name := "db";
     path := "/skills/db/SKILL.md";
     resolvedPath := "/skills/db";
     description := "(opencode - Skill) ";
     scope := "opencode";
     mcpConfig := Some sibling_servers |}.

(** A bare mapping in which one value declares a command and another does
    not. *)
Definition mixed_mapping : JValue N :=
  JObject [ ("sqlite", sqlite_config); ("note", JString "scratch") ].

(** The command configurations of the normalizer's tests. *)
Definition array_and_args_config : JValue N :=
  JObject [ ("command", JArray [ JString "npx"; JString "-y"; JString "@some/package" ]);
            ("args", JArray [ JString "should"; JString "be"; JString "ignored" ]) ].

Definition port_config : JValue N :=
  JObject [ ("command", JArray [ JString "node"; JString "--port"; JNumber 3000%N ]) ].

Definition three_lines : string := "Alpha" ++ nl ++ "beta" ++ nl ++ "ALPHABET".

(** A call of the tool with an arguments text. *)
Definition call_with_arguments (server tool text : string) : SkillMcp.Args :=
  {| SkillMcp.mcp_name := server;
     SkillMcp.tool_name := Some tool;
     SkillMcp.resource_name := None;
     SkillMcp.prompt_name := None;
     SkillMcp.arguments := Some text;
     SkillMcp.grep := None |}.

Definition query_tool : McpTool N :=
  {| tool_name_ := "query";
     tool_description := Some "Run a query";
     inputSchema := Some (JObject [ ("type", JString "object") ]) |}.

(** A Manager whose servers expose one tool and one resource. *)
Definition catalog_manager : SkillMcpManager N unit := {|
  listTools := fun _ _ s => (Resolved [ query_tool ], s);
  listResources := fun _ _ s => (Resolved [ {| uri := "db://tables" |} ], s);
  listPrompts := fun _ _ s => (Resolved [], s);
  callTool := fun _ _ _ _ s => (Resolved (JObject []), s);
  readResource := fun _ _ _ s => (Resolved (JObject []), s);
  getPrompt := fun _ _ _ _ s => (Resolved (JObject []), s);
  disconnectSession := fun _ s => (Resolved tt, s)
|}.

Definition db_entry : Dirent :=
  {| entry_name := "db"; entry_isDirectory := true; entry_isSymbolicLink := false |}.

Definition hidden_entry : Dirent :=
  {| entry_name := ".git"; entry_isDirectory := true; entry_isSymbolicLink := false |}.

(** A home and a project that both hold a skill folder [db] with SKILL.md. *)
Definition two_scopes_fs : FileSystem := {|
  readFile := fun p =>
    if String.eqb p "/home/dev/.config/opencode/skill/db/SKILL.md" then Some skill_md
    else if String.eqb p "/work/.opencode/skill/db/SKILL.md" then Some skill_md
    else None;
  path_join := fun dir file => dir ++ "/" ++ file
|}.

Definition two_scopes_dirs : Directories := {|
  readdir := fun p =>
    if String.eqb p "/home/dev/.config/opencode/skill" then Some [ db_entry ]
    else if String.eqb p "/work/.opencode/skill" then Some [ db_entry ]
    else None;
  realpath := fun _ => None;
  access := fun p =>
    String.eqb p "/home/dev/.config/opencode/skill/db/SKILL.md"
    || String.eqb p "/work/.opencode/skill/db/SKILL.md";
  basename := fun p _ => p;
  homedir := "/home/dev";
  cwd := "/work"
|}.

Definition project_db_skill : LoadedSkill N :=
  {| name := "db";
     path := "/work/.opencode/skill/db/SKILL.md";
     resolvedPath := "/work/.opencode/skill/db";
     description := "(opencode-project - Skill) ";
     scope := "opencode-project";
     mcpConfig := Some (JObject [ ("memory", memory_config) ]) |}.

(** A global skill directory with the folder [db] (holding SKILL.md) and a
    hidden folder; no project directory. *)
Definition one_skill_dirs : Directories := {|
  readdir := fun p =>
    if String.eqb p "/skills" then Some [ hidden_entry; db_entry ] else None;
  realpath := fun _ => None;
  access := fun p => String.eqb p "/skills/db/SKILL.md";
  basename := fun p _ => p;
  homedir := "/home/dev";
  cwd := "/work"
|}.

End Fixtures.

(* ================================================================== *)
(** * Part II: lemmas and theorems                                     *)
(* ================================================================== *)

Import Js Eff Host.

(** ** Lines: [split] and [join] *)

Lemma split_nl_not_nil (s : string) : split_nl s <> [].
Proof.
  induction s as [|c rest IH]; simpl.
  - discriminate.
  - destruct (Ascii.eqb c LF); [discriminate|].
    destruct (split_nl rest); discriminate.
Qed.

Lemma join_cons (sep x : string) (l : list string) :
  l <> [] -> join sep (x :: l) = x ++ sep ++ join sep l.
Proof.
  destruct l as [|y l]; [congruence|reflexivity].
Qed.

Lemma join_split_nl (s : string) : join nl (split_nl s) = s.
Proof.
  induction s as [|c rest IH]; [reflexivity|].
  simpl. destruct (Ascii.eqb c LF) eqn:Ec.
  - apply Ascii.eqb_eq in Ec. subst c.
    rewrite join_cons by apply split_nl_not_nil.
    rewrite IH. reflexivity.
  - pose proof (split_nl_not_nil rest) as Hne.
    destruct (split_nl rest) as [|piece pieces]; [congruence|].
    destruct pieces as [|q pieces].
    + simpl in IH. simpl. rewrite IH. reflexivity.
    + rewrite join_cons in IH by discriminate.
      rewrite join_cons by discriminate.
      rewrite <- IH. reflexivity.
Qed.

Lemma split_nl_no_lf (s : string) : Forall (fun piece => has_lf piece = false) (split_nl s).
Proof.
  induction s as [|c rest IH]; simpl.
  - constructor; [reflexivity|constructor].
  - destruct (Ascii.eqb c LF) eqn:Ec.
    + constructor; [reflexivity|exact IH].
    + destruct (split_nl rest) as [|piece pieces].
      * constructor; [simpl; rewrite Ec; reflexivity|constructor].
      * inversion IH; subst. constructor; [simpl; rewrite Ec; assumption|assumption].
Qed.

Lemma split_nl_line_then (x rest : string) :
  has_lf x = false -> split_nl (x ++ nl ++ rest) = x :: split_nl rest.
Proof.
  induction x as [|c x IH]; simpl; intros Hx.
  - reflexivity.
  - apply orb_false_iff in Hx. destruct Hx as [Ec Hx].
    rewrite Ec. simpl in IH. rewrite (IH Hx). reflexivity.
Qed.

Lemma split_nl_single (x : string) : has_lf x = false -> split_nl x = [x].
Proof.
  induction x as [|c x IH]; simpl; intros Hx.
  - reflexivity.
  - apply orb_false_iff in Hx. destruct Hx as [Ec Hx].
    rewrite Ec, (IH Hx). reflexivity.
Qed.

Lemma split_nl_join (l : list string) :
  l <> [] -> Forall (fun piece => has_lf piece = false) l -> split_nl (join nl l) = l.
Proof.
  induction l as [|x l IH]; [congruence|].
  intros _ Hall. inversion Hall as [|? ? Hx Hl]; subst.
  destruct l as [|y l].
  - simpl. apply split_nl_single. exact Hx.
  - rewrite join_cons by discriminate.
    rewrite split_nl_line_then by exact Hx.
    rewrite IH; [reflexivity|discriminate|exact Hl].
Qed.

Lemma Forall_filter {A : Type} (P : A -> Prop) (f : A -> bool) (l : list A) :
  Forall P l -> Forall P (filter f l).
Proof.
  induction 1 as [|x l Hx Hl IH]; simpl; [constructor|].
  destruct (f x); [constructor; assumption|assumption].
Qed.

Lemma filter_all {A : Type} (f : A -> bool) (l : list A) :
  (forall x, f x = true) -> filter f l = l.
Proof.
  intros Hf. induction l as [|x l IH]; simpl; [reflexivity|].
  rewrite Hf, IH. reflexivity.
Qed.

Lemma length_pos_not_nil {A : Type} (l : list A) : Nat.ltb 0 (length l) = true <-> l <> [].
Proof.
  destruct l; simpl; split; intros; congruence || discriminate || reflexivity.
Qed.

(** ** The [skill_mcp] tool *)

Section SkillMcpFacts.
Import SkillMcp.
Context {Num : Type} {number : JsNumber Num} {builtins : Builtins Num}.
Context {S : Type} {manager : SkillMcpManager Num S}.

Lemma push_if_length (sel : option string) (t : OperationType) :
  length (push_if sel t) = if truthy_opt sel then 1 else 0.
Proof.
  destruct sel as [s|]; simpl; [destruct (truthy s)|]; reflexivity.
Qed.

Lemma operations_length (args : Args) : length (operations args) = selectors_given args.
Proof.
  unfold operations, selectors_given.
  rewrite !length_app, !push_if_length. lia.
Qed.

Lemma validate_none (args : Args) :
  selectors_given args = 0 -> validateOperationParams args = Throw missing_operation_message.
Proof.
  intros H0. unfold validateOperationParams.
  rewrite operations_length, H0. reflexivity.
Qed.

Lemma validate_many (args : Args) :
  1 < selectors_given args ->
  validateOperationParams args = Throw (multiple_operations_message args).
Proof.
  intros Hm. unfold validateOperationParams. rewrite operations_length.
  destruct (Nat.eqb (selectors_given args) 0) eqn:E0.
  - apply Nat.eqb_eq in E0. lia.
  - apply Nat.ltb_lt in Hm. rewrite Hm. reflexivity.
Qed.

Lemma validate_one (args : Args) :
  selectors_given args = 1 ->
  exists op, validateOperationParams args = Ok op /\ operations args = [op].
Proof.
  intros H1. unfold validateOperationParams.
  pose proof (operations_length args) as Hlen. rewrite H1 in Hlen.
  rewrite Hlen. simpl.
  destruct (operations args) as [|op [|op' ops]]; simpl in Hlen; try discriminate.
  exists op. split; reflexivity.
Qed.

(** A call that fails validation throws at once and leaves the world as it
    found it. *)
Lemma execute_invalid (skills : list (LoadedSkill Num)) (args : Args)
  (w : World Num S) (msg : string) :
  validateOperationParams args = Throw msg ->
  execute skills args w = (Throw msg, w).
Proof.
  intros Hv. unfold execute, bind, lift. rewrite Hv. reflexivity.
Qed.

Lemma multiple_message_cites (args : Args) :
  startsWith (multiple_operations_message args) "Multiple operations specified." = true.
Proof. reflexivity. Qed.

(** C1.  For every call of the invoke tool in which zero, or more than one,
    of the selectors tool_name, resource_name, prompt_name are given, the call
    throws before anything else happens: the world, and with it the log of
    skill lookups and Manager calls, is exactly what it was.  With none given
    the error is the missing-operation message; with several it is the
    message that opens with "Multiple operations specified.". *)
Theorem invoke_rejects_wrong_selector_count :
  forall (skills : list (LoadedSkill Num)) (args : Args) (w : World Num S),
    selectors_given args <> 1 ->
    exists msg,
      execute skills args w = (Throw msg, w)
      /\ (selectors_given args = 0 -> msg = missing_operation_message)
      /\ (1 < selectors_given args ->
          msg = multiple_operations_message args
          /\ startsWith msg "Multiple operations specified." = true).
Proof.
  intros skills args w Hne.
  destruct (Nat.eq_dec (selectors_given args) 0) as [H0|H0].
  - exists missing_operation_message. split; [|split].
    + apply execute_invalid, validate_none, H0.
    + reflexivity.
    + lia.
  - assert (Hm : 1 < selectors_given args) by lia.
    exists (multiple_operations_message args). split; [|split].
    + apply execute_invalid, validate_many, Hm.
    + lia.
    + intros _. split; [reflexivity|apply multiple_message_cites].
Qed.

(** A selector that is absent or the empty string. *)
Lemma absent_or_empty_falsy (sel : option string) :
  sel = None \/ sel = Some EmptyString -> truthy_opt sel = false.
Proof. intros [->| ->]; reflexivity. Qed.

(** C9.  When each of tool_name, resource_name and prompt_name is absent or
    the empty string, the empty strings count as absent: validation fails
    with the missing-operation error, and the call throws it without looking
    up a skill or touching the Manager. *)
Theorem empty_selectors_count_as_absent :
  forall (skills : list (LoadedSkill Num)) (args : Args) (w : World Num S),
    (tool_name args = None \/ tool_name args = Some EmptyString) ->
    (resource_name args = None \/ resource_name args = Some EmptyString) ->
    (prompt_name args = None \/ prompt_name args = Some EmptyString) ->
    operations args = []
    /\ validateOperationParams args = Throw missing_operation_message
    /\ execute skills args w = (Throw missing_operation_message, w)
    /\ startsWith missing_operation_message "Missing operation." = true.
Proof.
  intros skills args w Ht Hr Hp.
  assert (H0 : selectors_given args = 0).
  { unfold selectors_given.
    rewrite (absent_or_empty_falsy _ Ht), (absent_or_empty_falsy _ Hr),
            (absent_or_empty_falsy _ Hp). reflexivity. }
  split; [|split; [|split]].
  - apply length_zero_iff_nil. rewrite operations_length. exact H0.
  - apply validate_none, H0.
  - apply execute_invalid, validate_none, H0.
  - reflexivity.
Qed.

(** *** The grep post-filter *)

Lemma applyGrepFilter_no_pattern (output : string) : applyGrepFilter output None = output.
Proof. reflexivity. Qed.

Lemma applyGrepFilter_valid (output pattern : string) (regex : Regex) :
  truthy pattern = true ->
  RegExp_new pattern "i" = Some regex ->
  applyGrepFilter output (Some pattern) =
    let filtered := filter (regex_test regex) (split_nl output) in
    if Nat.ltb 0 (length filtered) then join nl filtered else no_lines_matched pattern.
Proof.
  intros Ht Hr. unfold applyGrepFilter. rewrite Ht, Hr. reflexivity.
Qed.

(** C7.  For every output and every pattern the engine accepts (compiled with
    the flag [i], ignoring case): the filter returns exactly the lines of the
    output that the pattern matches, in their order, joined by line feeds;
    when no line matches it returns the marker that names the pattern, which
    is never the empty string; and without a pattern the output comes back
    unchanged.  The empty pattern takes the early return of the source, which
    agrees with filtering because the empty expression matches every line. *)
Theorem grep_filter_keeps_matching_lines :
  forall (output pattern : string) (regex : Regex),
    RegExp_new pattern "i" = Some regex ->
    (pattern = EmptyString -> forall line, regex_test regex line = true) ->
    let matching := filter (regex_test regex) (split_nl output) in
    (matching <> [] ->
       applyGrepFilter output (Some pattern) = join nl matching
       /\ split_nl (applyGrepFilter output (Some pattern)) = matching)
    /\ (matching = [] ->
          applyGrepFilter output (Some pattern)
            = "[grep] No lines matched pattern: " ++ pattern
          /\ applyGrepFilter output (Some pattern) <> EmptyString)
    /\ applyGrepFilter output None = output.
Proof.
  intros output pattern regex Hr Hempty. cbv zeta.
  set (matching := filter (regex_test regex) (split_nl output)).
  assert (Hlines : Forall (fun piece => has_lf piece = false) matching)
    by apply Forall_filter, split_nl_no_lf.
  destruct pattern as [|c p].
  - (* the early return *)
    assert (Hall : matching = split_nl output)
      by (apply filter_all, Hempty; reflexivity).
    assert (Hout : applyGrepFilter output (Some EmptyString) = output) by reflexivity.
    split; [|split].
    + intros _. rewrite Hout, Hall. split.
      * symmetry. apply join_split_nl.
      * reflexivity.
    + intros Hnil. exfalso. apply (split_nl_not_nil output). congruence.
    + reflexivity.
  - pose proof (applyGrepFilter_valid output (String c p) regex eq_refl Hr) as Hv.
    cbv zeta in Hv. fold matching in Hv.
    split; [|split].
    + intros Hne. rewrite Hv.
      rewrite (proj2 (length_pos_not_nil matching) Hne).
      split; [reflexivity|].
      apply split_nl_join; [exact Hne|exact Hlines].
    + intros Hnil. rewrite Hv, Hnil.
      split; [reflexivity|discriminate].
    + reflexivity.
Qed.

(** C10.  A pattern the engine refuses as a regular expression is silently
    ignored: the output comes back exactly as it was, and nothing is raised
    ([applyGrepFilter] has no failing result at all). *)
Theorem grep_filter_ignores_invalid_pattern :
  forall (output pattern : string),
    RegExp_new pattern "i" = None ->
    applyGrepFilter output (Some pattern) = output.
Proof.
  intros output pattern Hr. unfold applyGrepFilter.
  destruct (truthy pattern); simpl; [rewrite Hr|]; reflexivity.
Qed.

End SkillMcpFacts.

(** *** Looking a server up *)

Section LookupFacts.
Import SkillMcp.
Context {Num : Type} {number : JsNumber Num} {builtins : Builtins Num}.
Context {S : Type} {manager : SkillMcpManager Num S}.

Lemma has_own_false_iff {V : Type} (k : string) (o : list (string * V)) :
  has_own k o = false <-> ~ In k (Object_keys o).
Proof.
  unfold has_own, Object_keys.
  induction o as [|[k' v] o IH]; simpl.
  - split; [intros _ []|reflexivity].
  - destruct (String.eqb k k') eqn:E.
    + apply String.eqb_eq in E. subst k'. split; [discriminate|].
      intros Hn. exfalso. apply Hn. left. reflexivity.
    + apply String.eqb_neq in E. rewrite IH. split.
      * intros Hn [Heq|Hin]; [congruence|contradiction].
      * intros Hn Hin. apply Hn. right. exact Hin.
Qed.

Lemma findMcpServer_undeclared (mcpName : string) (skills : list (LoadedSkill Num)) :
  plain_configs skills ->
  undeclared mcpName skills ->
  mem mcpName Object_prototype_keys = false ->
  findMcpServer mcpName skills = Ok None.
Proof.
  intros Hplain Hund Hproto.
  induction skills as [|skill rest IH]; [reflexivity|].
  inversion Hplain as [|? ? Hsk Hrest]; subst.
  assert (IH' : findMcpServer mcpName rest = Ok None).
  { apply IH; [exact Hrest|].
    intros sk props Hin. apply Hund. right. exact Hin. }
  simpl. destruct (mcpConfig skill) as [cfg|] eqn:Ecfg; [|exact IH'].
  destruct cfg as [| | | | |props]; try contradiction.
  simpl. unfold js_in. rewrite Hproto.
  assert (Hown : has_own mcpName props = false).
  { apply has_own_false_iff. apply (Hund skill); [left; reflexivity|exact Ecfg]. }
  rewrite Hown. exact IH'.
Qed.

(** A name that plain objects inherit is found in the first skill that has a
    configuration at all, whatever servers that skill declares. *)
Lemma findMcpServer_inherited (mcpName : string) (skill : LoadedSkill Num)
  (props : list (string * JValue Num)) (rest : list (LoadedSkill Num)) :
  mcpConfig skill = Some (JObject props) ->
  has_own mcpName props = false ->
  mem mcpName Object_prototype_keys = true ->
  findMcpServer mcpName (skill :: rest) = Ok (Some (skill, Inherited mcpName)).
Proof.
  intros Hcfg Hown Hproto. simpl. rewrite Hcfg. simpl.
  unfold js_in, js_get, has_own in *. rewrite Hproto.
  destruct (get_own mcpName props); [discriminate|].
  rewrite orb_true_r. reflexivity.
Qed.

Lemma available_line_listed (skills : list (LoadedSkill Num)) (skill : LoadedSkill Num)
  (props : list (string * JValue Num)) (serverName : string) :
  In skill skills -> mcpConfig skill = Some (JObject props) ->
  In serverName (Object_keys props) ->
  In (available_line serverName (name skill)) (available_mcps skills).
Proof.
  intros Hin Hcfg Hkey. unfold available_mcps.
  apply in_flat_map. exists skill. split; [exact Hin|].
  rewrite Hcfg. simpl.
  apply (in_map (fun k => available_line k (name skill))). exact Hkey.
Qed.


(** For a name that is neither declared by a skill nor inherited by plain
    objects, the call reads the skills, throws the not-found error with the
    listing of every declared (server, skill) pair, and never reaches the
    Manager. *)
Lemma unknown_server_is_reported (skills : list (LoadedSkill Num)) (args : Args)
  (w : World Num S) :
  selectors_given args = 1 ->
  plain_configs skills ->
  undeclared (mcp_name args) skills ->
  mem (mcp_name args) Object_prototype_keys = false ->
  execute skills args w =
    (Throw (not_found_message (mcp_name args) skills),
     {| currentSessionID := currentSessionID w;
        manager_state := manager_state w;
        log := log w +++ [ EvGetLoadedSkills ] |})
  /\ (forall skill props serverName,
        In skill skills -> mcpConfig skill = Some (JObject props) ->
        In serverName (Object_keys props) ->
        In (available_line serverName (name skill)) (available_mcps skills)).
Proof.
  intros H1 Hplain Hund Hproto. split.
  - destruct (validate_one args H1) as [op [Hv _]].
    unfold execute, bind, lift, emit, modify, throw. rewrite Hv. simpl.
    rewrite (findMcpServer_undeclared _ _ Hplain Hund Hproto). reflexivity.
  - intros skill props serverName. apply available_line_listed.
Qed.

End LookupFacts.

(** ** The capability listing of the [skill] tool *)

Section EffFacts.
Context {W : Type}.

Lemma try_catch_total {A : Type} (m : M W A) (h : string -> M W A) (w : W) :
  (forall msg w1, exists a w2, h msg w1 = (Ok a, w2)) ->
  exists a w', try_catch m h w = (Ok a, w').
Proof.
  intros Hh. unfold try_catch.
  destruct (m w) as [[a|msg] w1].
  - exists a, w1. reflexivity.
  - apply Hh.
Qed.

(** A loop whose body always returns, returns; and what holds of each turn
    holds of the collected results. *)
Lemma traverse_total {A B : Type} (f : A -> M W B) (Q : A -> B -> Prop) :
  (forall x w, exists y w', f x w = (Ok y, w') /\ Q x y) ->
  forall l w, exists ys w', traverse f l w = (Ok ys, w') /\ Forall2 Q l ys.
Proof.
  intros Hf. induction l as [|x l IH]; intros w; simpl.
  - exists [], w. split; [reflexivity|constructor].
  - destruct (Hf x w) as [y [w1 [Hy Hq]]].
    destruct (IH w1) as [ys [w2 [Hys Hall]]].
    exists (y :: ys), w2. unfold bind. rewrite Hy, Hys. split.
    + reflexivity.
    + constructor; assumption.
Qed.

Lemma traverse_ext {A B : Type} (f g : A -> M W B) :
  (forall x w, f x w = g x w) ->
  forall l w, traverse f l w = traverse g l w.
Proof.
  intros Hfg. induction l as [|x l IH]; intros w; simpl; [reflexivity|].
  unfold bind. rewrite Hfg. destruct (g x w) as [[y|msg] w1]; [|reflexivity].
  rewrite IH. reflexivity.
Qed.

End EffFacts.

Section ListingFacts.
Import SkillTool.
Context {Num : Type} {number : JsNumber Num} {builtins : Builtins Num}.
Context {S : Type} {manager : SkillMcpManager Num S}.

Lemma server_section_returns (skill : LoadedSkill Num) (sessionID : string)
  (entry : string * JValue Num) (w : World Num S) :
  exists block w',
    server_section skill sessionID entry w = (Ok block, w') /\ framed (fst entry) block.
Proof.
  destruct entry as [serverName cfg]. unfold server_section, bind.
  match goal with
  | |- context [try_catch ?m ?h w] =>
      destruct (try_catch_total m h w) as [body [w1 Hbody]]
  end.
  { intros msg w1. eexists. eexists. reflexivity. }
  rewrite Hbody. eexists. eexists. split; [reflexivity|].
  exists body. reflexivity.
Qed.

Lemma framed_lines (serverName : string) (block : list string) :
  framed serverName block ->
  In ("### " ++ serverName) block /\ In (invoke_hint serverName) block.
Proof.
  intros [body ->]. split.
  - simpl. left. reflexivity.
  - simpl. right. right. apply in_or_app. right. simpl. auto.
Qed.

Lemma blocks_cover (entries : list (string * JValue Num)) (blocks : list (list string)) :
  Forall2 (fun entry block => framed (fst entry) block) entries blocks ->
  forall serverName, In serverName (map fst entries) ->
    In ("### " ++ serverName) (List.concat blocks)
    /\ In (invoke_hint serverName) (List.concat blocks).
Proof.
  induction 1 as [|entry block entries blocks Hfr Hall IH]; intros serverName Hin.
  - destruct Hin.
  - simpl in Hin. simpl. destruct Hin as [<-|Hin].
    + destruct (framed_lines _ _ Hfr) as [Hh Hu].
      split; apply in_or_app; left; assumption.
    + destruct (IH _ Hin) as [Hh Hu].
      split; apply in_or_app; right; assumption.
Qed.

(** A discovery call that throws before returning a promise is reported by
    the failure note, whichever of the three calls it is, and the later calls
    of that server are not made. *)
Lemma thrown_discovery_is_noted (skill : LoadedSkill Num) (sessionID serverName : string)
  (cfg : JValue Num) (w : World Num S) (msg : string) :
  first_throw {| serverName := serverName;
                 info_skillName := name skill;
                 sessionID := sessionID |}
              {| config := OwnValue cfg; ctx_skillName := name skill |}
              (manager_state w) = Some msg ->
  fst (server_section skill sessionID (serverName, cfg) w) =
    Ok ([ "### " ++ serverName; EmptyString ]
        +++ [ failure_note msg ]
        +++ [ EmptyString; invoke_hint serverName; EmptyString ]).
Proof.
  unfold first_throw, server_section, bind, try_catch, discover, invoke, bind, emit, modify,
         throw, ret.
  simpl.
  match goal with
  | |- context [listTools ?i ?c ?s] =>
      destruct (listTools i c s) as [[tools|m1|m1] s1]
  end; simpl;
  try (intros Heq; inversion Heq; subst; reflexivity);
  match goal with
  | |- context [listResources ?i ?c ?s] =>
      destruct (listResources i c s) as [[resources|m2|m2] s2]
  end; simpl;
  try (intros Heq; inversion Heq; subst; reflexivity);
  match goal with
  | |- context [listPrompts ?i ?c ?s] =>
      destruct (listPrompts i c s) as [[prompts|m3|m3] s3]
  end; simpl;
  intros Heq; inversion Heq; subst; reflexivity.
Qed.

(** Rejected discovery promises cannot be told from empty answers: every
    block, and so the whole listing, is what the forgiving Manager yields. *)
Lemma server_section_forgiving (skill : LoadedSkill Num) (sessionID : string)
  (entry : string * JValue Num) (w : World Num S) :
  server_section (manager := manager) skill sessionID entry w
  = server_section (manager := forgiving manager) skill sessionID entry w.
Proof.
  destruct entry as [serverName cfg].
  unfold server_section, bind, try_catch, discover, invoke, bind, emit, modify, throw, ret.
  simpl.
  match goal with
  | |- context [@listTools _ _ manager ?i ?c ?s] =>
      destruct (@listTools _ _ manager i c s) as [[tools|m1|m1] s1]
  end; simpl; try reflexivity;
  match goal with
  | |- context [@listResources _ _ manager ?i ?c ?s] =>
      destruct (@listResources _ _ manager i c s) as [[resources|m2|m2] s2]
  end; simpl; try reflexivity;
  match goal with
  | |- context [@listPrompts _ _ manager ?i ?c ?s] =>
      destruct (@listPrompts _ _ manager i c s) as [[prompts|m3|m3] s3]
  end; simpl; reflexivity.
Qed.

Lemma formatMcpCapabilities_forgiving (skill : LoadedSkill Num) (sessionID : string)
  (w : World Num S) :
  formatMcpCapabilities (manager := manager) skill sessionID w
  = formatMcpCapabilities (manager := forgiving manager) skill sessionID w.
Proof.
  unfold formatMcpCapabilities.
  destruct (mcpConfig skill) as [cfg|]; [|reflexivity].
  destruct (negb (truthy_value cfg) || Nat.eqb (length (keys_of cfg)) 0); [reflexivity|].
  unfold mcp_sections, bind.
  rewrite (traverse_ext _ _ (server_section_forgiving skill sessionID)).
  reflexivity.
Qed.

(** X25.  Listing the servers of a skill always completes, whatever the
    Manager does: the call returns and never throws, and every declared
    server, the failing ones and the others alike, gets its heading and its
    invocation hint.  In the block of a server, a discovery call that throws
    before returning a promise, be it the first, the second or the third, is
    rendered as the inline note "*Failed to connect: ...*" with the first
    line of its message. *)
Theorem listing_completes_whatever_the_manager_does :
  forall (skill : LoadedSkill Num) (sessionID : string) (w : World Num S),
    (exists answer w', formatMcpCapabilities skill sessionID w = (Ok answer, w'))
    /\ (forall cfg,
          mcpConfig skill = Some cfg -> truthy_value cfg = true -> keys_of cfg <> [] ->
          exists sections w',
            formatMcpCapabilities skill sessionID w = (Ok (Some (join nl sections)), w')
            /\ forall serverName, In serverName (keys_of cfg) ->
                 In ("### " ++ serverName) sections
                 /\ In (invoke_hint serverName) sections)
    /\ (forall serverName cfg msg,
          first_throw {| serverName := serverName;
                         info_skillName := name skill;
                         sessionID := sessionID |}
                      {| config := OwnValue cfg; ctx_skillName := name skill |}
                      (manager_state w) = Some msg ->
          fst (server_section skill sessionID (serverName, cfg) w) =
            Ok ([ "### " ++ serverName; EmptyString ]
                +++ [ "*Failed to connect: " ++ first_line msg ++ "*" ]
                +++ [ EmptyString; invoke_hint serverName; EmptyString ])).
Proof.
  intros skill sessionID w.
  assert (Hsome : forall cfg,
            mcpConfig skill = Some cfg -> truthy_value cfg = true -> keys_of cfg <> [] ->
            exists sections w',
              formatMcpCapabilities skill sessionID w = (Ok (Some (join nl sections)), w')
              /\ forall serverName, In serverName (keys_of cfg) ->
                   In ("### " ++ serverName) sections
                   /\ In (invoke_hint serverName) sections).
  { intros cfg Hcfg Htruthy Hkeys.
    unfold formatMcpCapabilities. rewrite Hcfg, Htruthy.
    destruct (keys_of cfg) as [|k ks] eqn:Ek; [congruence|]. simpl.
    destruct (traverse_total (server_section skill sessionID)
                (fun entry block => framed (fst entry) block)
                (server_section_returns skill sessionID) (entries_of cfg) w)
      as [blocks [w1 [Hrun Hall]]].
    unfold mcp_sections, bind, ret. rewrite Hrun.
    eexists. eexists. split; [reflexivity|].
    intros serverName Hin.
    assert (Hin' : In serverName (map fst (entries_of cfg)))
      by (unfold keys_of in Ek; rewrite Ek; exact Hin).
    destruct (blocks_cover _ _ Hall _ Hin') as [Hh Hu].
    split; right; right; right; assumption. }
  split; [|split; [exact Hsome|]].
  - unfold formatMcpCapabilities.
    destruct (mcpConfig skill) as [cfg|] eqn:Hcfg; [|eexists; eexists; reflexivity].
    destruct (truthy_value cfg) eqn:Htruthy; [|eexists; eexists; reflexivity].
    destruct (keys_of cfg) as [|k ks] eqn:Ek; [eexists; eexists; reflexivity|].
    destruct (Hsome cfg eq_refl Htruthy) as [sections [w1 [Hrun _]]].
    { rewrite Ek. discriminate. }
    unfold formatMcpCapabilities in Hrun. rewrite Hcfg, Htruthy, Ek in Hrun.
    simpl in Hrun. eexists. eexists. exact Hrun.
  - intros serverName cfg msg. apply thrown_discovery_is_noted.
Qed.

End ListingFacts.

(** ** The session hook *)

Section HookFacts.
Import Plugin.
Context {Num S : Type} {manager : SkillMcpManager Num S}.

Lemma disconnect_calls_app (l1 l2 : list (Event Num)) :
  disconnect_calls (l1 +++ l2) = disconnect_calls l1 +++ disconnect_calls l2.
Proof. unfold disconnect_calls. apply flat_map_app. Qed.

Lemma session_end_untracked (w : World Num S) (id : string) :
  truthy_opt (currentSessionID w) = false ->
  event (SessionDeleted id) w = (Ok tt, w).
Proof.
  intros Hf. unfold event, bind, ret, get_world. rewrite Hf. reflexivity.
Qed.

(** What a session end does while a session is tracked. *)
Lemma session_end_tracked (w : World Num S) (id sid : string) :
  currentSessionID w = Some sid -> truthy sid = true ->
  event (SessionDeleted id) w =
    match disconnectSession (Some sid) (manager_state w) with
    | (Resolved _, s') =>
        (Ok tt, {| currentSessionID := None;
                   manager_state := s';
                   log := (log w +++ [ EvManager (DisconnectSession (Some sid)) ])
                          +++ [ EvSetSession None ] |})
    | (Rejected msg, s') | (Thrown msg, s') =>
        (Throw msg, {| currentSessionID := Some sid;
                       manager_state := s';
                       log := log w +++ [ EvManager (DisconnectSession (Some sid)) ] |})
    end.
Proof.
  intros Hcur Ht.
  unfold event, bind, ret, get_world, await, invoke, set_session, bind, emit, modify, throw, ret.
  simpl. rewrite Hcur. simpl. rewrite Ht.
  destruct (disconnectSession (Some sid) (manager_state w)) as [[u|msg|msg] s'];
    simpl; rewrite ?Hcur; reflexivity.
Qed.

(** C8 (amended).  On the session-end notification of the tracked session
    (a non-empty id), [disconnectSession] is invoked exactly once, with that
    session's id, and only after it has returned is the tracked id cleared.
    On a session-end notification while no session id is tracked nothing is
    invoked and nothing changes.  On any session end at most one call is
    made, and never with a cleared or empty id. *)
Theorem session_end_disconnects_tracked_session :
  forall (w : World Num S) (id : string),
    (currentSessionID w = Some id -> truthy id = true ->
       exists r w',
         event (SessionDeleted id) w = (r, w')
         /\ log w' = log w
                     +++ [ EvManager (DisconnectSession (Some id)) ]
                     +++ match r with
                         | Ok _ => [ EvSetSession None ]
                         | Throw _ => []
                         end
         /\ disconnect_calls (log w') = disconnect_calls (log w) +++ [ Some id ]
         /\ (r = Ok tt -> currentSessionID w' = None)
         /\ (forall u s', disconnectSession (Some id) (manager_state w) = (Resolved u, s') ->
               r = Ok tt))
    /\ (truthy_opt (currentSessionID w) = false ->
          event (SessionDeleted id) w = (Ok tt, w))
    /\ (exists calls,
          disconnect_calls (log (snd (event (SessionDeleted id) w)))
            = disconnect_calls (log w) +++ calls
          /\ length calls <= 1
          /\ forall sid, In sid calls -> exists s, sid = Some s /\ truthy s = true).
Proof.
  intros w id. split; [|split].
  - intros Hcur Ht. rewrite (session_end_tracked w id id Hcur Ht).
    destruct (disconnectSession (Some id) (manager_state w)) as [[u|msg|msg] s'] eqn:Hd;
      eexists; eexists; (split; [reflexivity|]); simpl;
      rewrite ?disconnect_calls_app, <- ?app_assoc; simpl; rewrite ?app_nil_r;
      repeat split; try reflexivity; try discriminate;
      try (intros u' s'' Heq; discriminate).
  - apply session_end_untracked.
  - destruct (currentSessionID w) as [sid|] eqn:Hcur.
    + destruct (truthy sid) eqn:Ht.
      * rewrite (session_end_tracked w id sid Hcur Ht).
        exists [ Some sid ].
        destruct (disconnectSession (Some sid) (manager_state w)) as [[u|msg|msg] s'];
          simpl; rewrite ?disconnect_calls_app; simpl; rewrite ?app_nil_r;
          (split; [reflexivity|split; [lia|]]);
          intros x [<-|[]]; exists sid; (split; [reflexivity|exact Ht]).
      * rewrite session_end_untracked by (rewrite Hcur; exact Ht).
        exists []. simpl. rewrite app_nil_r.
        split; [reflexivity|split; [lia|intros x []]].
    + rewrite session_end_untracked by (rewrite Hcur; reflexivity).
      exists []. simpl. rewrite app_nil_r.
      split; [reflexivity|split; [lia|intros x []]].
Qed.

End HookFacts.

(** ** The skill loader *)

Section LoaderFacts.
Import Frontmatter SkillLoader.
Context {Num : Type} {number : JsNumber Num} {builtins : Builtins Num} {fs : FileSystem}.

(** An index printed in decimal starts with a digit, so it is none of the
    keys the loader asks for. *)
Lemma nat_to_string_head (i : nat) :
  exists c rest, nat_to_string i = String c rest
                 /\ Nat.leb 48 (nat_of_ascii c) && Nat.leb (nat_of_ascii c) 57 = true.
Proof.
  unfold nat_to_string, NilZero.string_of_uint.
  destruct (Nat.to_uint i); simpl; eexists; eexists; split; reflexivity.
Qed.

Lemma not_an_index (key : string) (n : nat) :
  match key with
  | String c _ => Nat.leb 48 (nat_of_ascii c) && Nat.leb (nat_of_ascii c) 57 = false
  | EmptyString => True
  end ->
  existsb (fun i => String.eqb key (nat_to_string i)) (seq 0 n) = false.
Proof.
  intros Hkey. generalize 0. induction n as [|n IH]; intros start; simpl; [reflexivity|].
  rewrite IH, orb_false_r.
  destruct (nat_to_string_head start) as [c [rest [Hs Hd]]].
  apply String.eqb_neq. intros Heq. rewrite Hs in Heq. subst key. congruence.
Qed.

Lemma literal_key_not_inherited (key : string) :
  literal_key key -> mem key Object_prototype_keys = false.
Proof.
  intros [Hb _]. unfold mem, Array_builtin_keys in Hb.
  rewrite existsb_app in Hb. apply orb_false_iff in Hb. apply Hb.
Qed.

Lemma in_value_literal (key : string) (parsed : JValue Num) :
  literal_key key ->
  in_value key parsed = match own_field key parsed with Some _ => true | None => false end.
Proof.
  intros Hlit. pose proof (literal_key_not_inherited key Hlit) as Hproto.
  destruct Hlit as [Harr Hdigit].
  destruct parsed as [| | | |items|props]; try reflexivity.
  - unfold in_value, own_field. rewrite Harr, (not_an_index key _ Hdigit). reflexivity.
  - unfold in_value, own_field, js_in, has_own. rewrite Hproto, orb_false_r. reflexivity.
Qed.

Lemma truthy_member_literal (key : string) (parsed : JValue Num) :
  literal_key key ->
  truthy_member key parsed =
    match own_field key parsed with
    | Some v => if truthy_value v then Some v else None
    | None => None
    end.
Proof.
  intros Hlit. unfold truthy_member. rewrite (in_value_literal key parsed Hlit).
  pose proof (literal_key_not_inherited key Hlit) as Hproto.
  destruct parsed as [| | | |items|props]; try reflexivity.
  unfold own_field, get_value, js_get. destruct (get_own key props); reflexivity.
Qed.

Lemma mcpServers_literal : literal_key "mcpServers".
Proof. split; reflexivity. Qed.

Lemma mcp_literal : literal_key "mcp".
Proof. split; reflexivity. Qed.

Lemma command_literal : literal_key "command".
Proof. split; reflexivity. Qed.

(** [recognize] spelled out on own properties. *)
Lemma recognize_unfold (parsed : JValue Num) :
  recognize parsed =
    if truthy_value parsed && typeof_object parsed then
      match own_field "mcpServers" parsed, own_field "mcp" parsed with
      | Some servers, other =>
          if truthy_value servers then Some servers
          else match other with
               | Some servers' => if truthy_value servers' then Some servers' else None
               | None => None
               end
      | None, Some servers => if truthy_value servers then Some servers else None
      | None, None =>
          if existsb declares_command (values_of parsed) then Some parsed else None
      end
    else None.
Proof.
  unfold recognize.
  rewrite !(truthy_member_literal _ _ mcpServers_literal),
          !(truthy_member_literal _ _ mcp_literal),
          !(in_value_literal _ _ mcpServers_literal),
          !(in_value_literal _ _ mcp_literal).
  destruct (truthy_value parsed && typeof_object parsed); [|reflexivity].
  destruct (own_field "mcpServers" parsed) as [servers|];
    destruct (own_field "mcp" parsed) as [servers'|]; simpl;
    repeat match goal with
           | |- context [truthy_value ?v] => destruct (truthy_value v)
           end; reflexivity.
Qed.

Lemma recognize_truthy (parsed cfg : JValue Num) :
  recognize parsed = Some cfg -> truthy_value cfg = true.
Proof.
  rewrite recognize_unfold.
  destruct (truthy_value parsed && typeof_object parsed) eqn:Hobj; [|discriminate].
  apply andb_true_iff in Hobj. destruct Hobj as [Htruthy _].
  destruct (own_field "mcpServers" parsed) as [servers|];
    destruct (own_field "mcp" parsed) as [servers'|];
    repeat match goal with
           | |- context [if truthy_value ?v then _ else _] =>
               let E := fresh "E" in destruct (truthy_value v) eqn:E
           | |- context [if existsb ?f ?l then _ else _] => destruct (existsb f l)
           end;
    intros Heq; inversion Heq; subst; assumption.
Qed.

Lemma loadMcpJsonFromDir_truthy (skillDir : string) (cfg : JValue Num) :
  loadMcpJsonFromDir skillDir = Some cfg -> truthy_value cfg = true.
Proof.
  unfold loadMcpJsonFromDir.
  destruct (readFile (path_join skillDir "mcp.json")); [|discriminate].
  destruct (JSON_parse s); [|discriminate].
  apply recognize_truthy.
Qed.

(** C6 (amended).  The parsed mcp.json is recognized in exactly three ways:
    it is an object (i) with an mcpServers property of truthy value, which is
    then the configuration; or else (ii) with an mcp property of truthy
    value, which is then the configuration; or else (iii) with neither an
    mcpServers nor an mcp key and at least one value that is an object with a
    command field, the whole mapping being the configuration.  Whenever the
    sibling file is recognized its configuration is the one the skill gets;
    the front-matter configuration is used only when the file yields none. *)
Theorem sibling_file_shapes_and_priority :
  (forall parsed cfg : JValue Num,
     recognize parsed = Some cfg <->
     truthy_value parsed && typeof_object parsed = true
     /\ ((own_field "mcpServers" parsed = Some cfg /\ truthy_value cfg = true)
         \/ ((own_field "mcpServers" parsed = None
              \/ exists falsy, own_field "mcpServers" parsed = Some falsy
                               /\ truthy_value falsy = false)
             /\ own_field "mcp" parsed = Some cfg /\ truthy_value cfg = true)
         \/ (own_field "mcpServers" parsed = None /\ own_field "mcp" parsed = None
             /\ cfg = parsed
             /\ exists v, In v (values_of parsed) /\ declares_command v = true)))
  /\ (forall skillPath resolvedPath defaultName scope content skill,
        readFile skillPath = Some content ->
        loadSkillFromPath skillPath resolvedPath defaultName scope = Some skill ->
        (forall cfg, loadMcpJsonFromDir resolvedPath = Some cfg ->
                     mcpConfig skill = Some cfg)
        /\ (loadMcpJsonFromDir resolvedPath = None ->
            mcpConfig skill = parseSkillMcpConfigFromFrontmatter content)).
Proof.
  split.
  - intros parsed cfg. rewrite recognize_unfold.
    destruct (truthy_value parsed && typeof_object parsed) eqn:Hobj.
    2:{ split; [discriminate|]. intros [Habs _]. discriminate. }
    destruct (own_field "mcpServers" parsed) as [servers|] eqn:Es;
      destruct (own_field "mcp" parsed) as [servers'|] eqn:Em.
    + destruct (truthy_value servers) eqn:Ts; [|destruct (truthy_value servers') eqn:Tm].
      * split.
        -- intros Heq. inversion Heq; subst. split; [reflexivity|]. left. split; [reflexivity|exact Ts].
        -- intros [_ [[Heq _]|[[[Habs|[f [Hf Tf]]] _]|[Habs _]]]]; try discriminate.
           ++ congruence.
           ++ inversion Hf; subst. congruence.
      * split.
        -- intros Heq. inversion Heq; subst. split; [reflexivity|]. right. left.
           split; [right; exists servers; split; [reflexivity|exact Ts]|].
           split; [reflexivity|exact Tm].
        -- intros [_ [[Heq Tc]|[[_ [Heq _]]|[Habs _]]]]; try discriminate.
           ++ inversion Heq; subst. congruence.
           ++ congruence.
      * split; [discriminate|].
        intros [_ [[Heq Tc]|[[_ [Heq Tc]]|[Habs _]]]]; try discriminate.
        -- inversion Heq; subst. congruence.
        -- inversion Heq; subst. congruence.
    + destruct (truthy_value servers) eqn:Ts.
      * split.
        -- intros Heq. inversion Heq; subst. split; [reflexivity|]. left. split; [reflexivity|exact Ts].
        -- intros [_ [[Heq _]|[[_ [Habs _]]|[Habs _]]]]; try discriminate. congruence.
      * split; [discriminate|].
        intros [_ [[Heq Tc]|[[_ [Habs _]]|[Habs _]]]]; try discriminate.
        inversion Heq; subst. congruence.
    + destruct (truthy_value servers') eqn:Tm.
      * split.
        -- intros Heq. inversion Heq; subst. split; [reflexivity|]. right. left.
           split; [left; reflexivity|]. split; [reflexivity|exact Tm].
        -- intros [_ [[Habs _]|[[_ [Heq _]]|[_ [Habs _]]]]]; try discriminate. congruence.
      * split; [discriminate|].
        intros [_ [[Habs _]|[[_ [Heq Tc]]|[_ [Habs _]]]]]; try discriminate.
        inversion Heq; subst. congruence.
    + destruct (existsb declares_command (values_of parsed)) eqn:Ex.
      * split.
        -- intros Heq. inversion Heq; subst. split; [reflexivity|]. right. right.
           apply existsb_exists in Ex.
           repeat split; try reflexivity. exact Ex.
        -- intros [_ [[Habs _]|[[_ [Habs _]]|[_ [_ [Heq _]]]]]]; try discriminate. congruence.
      * split; [discriminate|].
        intros [_ [[Habs _]|[[_ [Habs _]]|[_ [_ [_ Hex]]]]]]; try discriminate.
        apply existsb_exists in Hex. congruence.
  - intros skillPath resolvedPath defaultName scope content skill Hread Hload.
    unfold loadSkillFromPath in Hload. rewrite Hread in Hload.
    inversion Hload; subst; clear Hload. simpl. split.
    + intros cfg Hcfg. rewrite Hcfg. unfold or_else.
      rewrite (loadMcpJsonFromDir_truthy _ _ Hcfg). reflexivity.
    + intros Hnone. rewrite Hnone. reflexivity.
Qed.

End LoaderFacts.

(** ** The command normalizer *)

Section NormalizeFacts.
Import EnvVars.
Context {Num : Type} {number : JsNumber Num}.

Lemma coerce_string (s : string) : coerce (JString s : JValue Num) = s.
Proof. reflexivity. Qed.

Lemma coerce_number (n : Num) : coerce (JNumber n) = number_to_string n.
Proof. reflexivity. Qed.

Lemma map_coerce_strings (l : list string) :
  map coerce (map (fun s => JString s : JValue Num) l) = l.
Proof.
  induction l as [|s l IH]; simpl; [reflexivity|]. rewrite IH. reflexivity.
Qed.

(** C3.  For every configuration whose command is the array [e, a1, a2, ...]:
    the executable is [e] and the arguments are [a1, a2, ...], one for one, in
    order and with repetitions, each element turned into a string on its own
    (a string is kept as it is, a number is printed); whatever else the
    configuration holds, an [args] field included, plays no part. *)
Theorem array_command_normalizes_elementwise :
  forall (cfg : McpServerConfig Num) (e : JValue Num) (rest : list (JValue Num)),
    own_field "command" cfg = Some (JArray (e :: rest)) ->
    normalizeCommand cfg = inr (coerce e, map coerce rest)
    /\ length (map coerce rest) = length rest
    /\ (forall i a, nth_error rest i = Some a ->
                    nth_error (map coerce rest) i = Some (coerce a))
    /\ (forall s, coerce (JString s : JValue Num) = s)
    /\ (forall n, coerce (JNumber n) = number_to_string n)
    /\ (forall exe arguments,
          e = JString exe -> rest = map (fun s => JString s) arguments ->
          normalizeCommand cfg = inr (exe, arguments)).
Proof.
  intros cfg e rest Hcmd.
  assert (Hn : normalizeCommand cfg = inr (coerce e, map coerce rest))
    by (unfold normalizeCommand; rewrite Hcmd; reflexivity).
  repeat split.
  - exact Hn.
  - apply length_map.
  - intros i a Hi. rewrite nth_error_map, Hi. reflexivity.
  - intros exe arguments -> ->. rewrite Hn, map_coerce_strings. reflexivity.
Qed.

(** C4.  For every configuration whose command is missing, null, or neither
    a string nor an array, normalization fails with InvalidConfiguration and
    the message that the command must be a string or array; no normalized
    pair comes out. *)
Theorem bad_command_is_invalid_configuration :
  forall (cfg : McpServerConfig Num),
    (own_field "command" cfg = None
     \/ exists v, own_field "command" cfg = Some v
                  /\ typeof_string v = false
                  /\ forall items, v <> JArray items) ->
    normalizeCommand cfg = inl (InvalidConfiguration invalid_command_message)
    /\ includes invalid_command_message "command must be a string or array" = true
    /\ forall pair, normalizeCommand cfg <> inr pair.
Proof.
  intros cfg Hbad.
  assert (Hn : normalizeCommand cfg = inl (InvalidConfiguration invalid_command_message)).
  { unfold normalizeCommand. destruct Hbad as [->|[v [-> [Hs Ha]]]]; [reflexivity|].
    destruct v as [|b|n|s|items|props]; try reflexivity.
    - discriminate.
    - exfalso. apply (Ha items). reflexivity. }
  split; [exact Hn|split; [reflexivity|]].
  intros pair. rewrite Hn. discriminate.
Qed.

End NormalizeFacts.

(* ================================================================== *)
(** * Instances: the theorems at concrete inputs                       *)
(* ================================================================== *)

Import Fixtures.

(** ** The normalizer on the cases of its test file *)

Example normalize_array_with_args :
  EnvVars.normalizeCommand
    (JObject [ ("command", JArray [ JString "npx"; JString "-y";
                                    JString "@playwright/mcp@latest" ]) ] : JValue N)
  = inr ("npx", [ "-y"; "@playwright/mcp@latest" ]).
Proof. reflexivity. Qed.

Example normalize_array_only_executable :
  EnvVars.normalizeCommand (JObject [ ("command", JArray [ JString "node" ]) ] : JValue N)
  = inr ("node", []).
Proof. reflexivity. Qed.

Example normalize_array_stringifies :
  EnvVars.normalizeCommand port_config = inr ("node", [ "--port"; "3000" ]).
Proof. reflexivity. Qed.

Example normalize_string_with_args :
  EnvVars.normalizeCommand
    (JObject [ ("command", JString "node"); ("args", JArray [ JString "--port"; JNumber 8080%N ]) ])
  = inr ("node", [ "--port"; "8080" ]).
Proof. reflexivity. Qed.

Example normalize_string_without_args :
  EnvVars.normalizeCommand (JObject [ ("command", JString "node") ] : JValue N)
  = inr ("node", []).
Proof. reflexivity. Qed.

Example normalize_array_ignores_args :
  EnvVars.normalizeCommand array_and_args_config = inr ("npx", [ "-y"; "@some/package" ]).
Proof. reflexivity. Qed.

Lemma array_command_normalizes_elementwise_witness :
  EnvVars.normalizeCommand array_and_args_config
    = inr (EnvVars.coerce (JString "npx" : JValue N),
           map EnvVars.coerce [ JString "-y" : JValue N; JString "@some/package" ]).
Proof.
  exact (proj1 (array_command_normalizes_elementwise
                  array_and_args_config (JString "npx")
                  [ JString "-y"; JString "@some/package" ] eq_refl)).
Defined.

Lemma bad_command_is_invalid_configuration_witness :
  EnvVars.normalizeCommand (JObject [] : JValue N)
    = inl (EnvVars.InvalidConfiguration EnvVars.invalid_command_message).
Proof.
  exact (proj1 (bad_command_is_invalid_configuration (JObject []) (or_introl eq_refl))).
Defined.

(** ** The [skill_mcp] tool *)

Lemma invoke_rejects_wrong_selector_count_witness :
  exists msg,
    SkillMcp.execute (manager := silent_manager) [ db_skill; notes_skill ]
      (call "sqlite" (Some "query") (Some "memory://notes") None None) fresh_world
      = (Throw msg, fresh_world)
    /\ startsWith msg "Multiple operations specified." = true.
Proof.
  destruct (invoke_rejects_wrong_selector_count (manager := silent_manager)
              [ db_skill; notes_skill ]
              (call "sqlite" (Some "query") (Some "memory://notes") None None)
              fresh_world)
    as [msg [Hrun [_ Hmany]]].
  - vm_compute. discriminate.
  - exists msg. split; [exact Hrun|].
    apply Hmany. vm_compute. lia.
Defined.

Lemma empty_selectors_count_as_absent_witness :
  SkillMcp.execute (manager := silent_manager) [ db_skill ]
    (call "sqlite" (Some EmptyString) None (Some EmptyString) None) fresh_world
  = (Throw SkillMcp.missing_operation_message, fresh_world).
Proof.
  exact (proj1 (proj2 (proj2
    (empty_selectors_count_as_absent (manager := silent_manager) [ db_skill ]
       (call "sqlite" (Some EmptyString) None (Some EmptyString) None) fresh_world
       (or_intror eq_refl) (or_introl eq_refl) (or_intror eq_refl))))).
Defined.

Lemma grep_filter_keeps_matching_lines_witness :
  SkillMcp.applyGrepFilter three_lines (Some "alpha") = "Alpha" ++ nl ++ "ALPHABET"
  /\ split_nl (SkillMcp.applyGrepFilter three_lines (Some "alpha")) = [ "Alpha"; "ALPHABET" ].
Proof.
  destruct (grep_filter_keeps_matching_lines (builtins := tiny_builtins)
              three_lines "alpha" "alpha") as [Hmatch _].
  - reflexivity.
  - intros absurd. discriminate absurd.
  - apply Hmatch. vm_compute. discriminate.
Defined.

Lemma grep_filter_ignores_invalid_pattern_witness :
  SkillMcp.applyGrepFilter three_lines (Some "(") = three_lines.
Proof.
  exact (grep_filter_ignores_invalid_pattern (builtins := tiny_builtins)
           three_lines "(" eq_refl).
Defined.

Example grep_filter_no_match :
  SkillMcp.applyGrepFilter three_lines (Some "gamma") = "[grep] No lines matched pattern: gamma".
Proof. reflexivity. Qed.

Example unknown_server_lists_known_pairs :
  SkillMcp.execute (manager := silent_manager) [ db_skill; plain_skill; notes_skill ]
    (call "postgres" (Some "query") None None None) fresh_world
  = (Throw ("MCP server " ++ dq ++ "postgres" ++ dq ++ " not found." ++ nl ++ nl
            ++ "Available MCP servers in loaded skills:" ++ nl
            ++ "  - " ++ dq ++ "sqlite" ++ dq ++ " from skill " ++ dq ++ "db" ++ dq ++ nl
            ++ "  - " ++ dq ++ "memory" ++ dq ++ " from skill " ++ dq ++ "notes" ++ dq ++ nl ++ nl
            ++ "Hint: Load the skill first using the 'skill' tool, then call skill_mcp."),
     {| currentSessionID := None; manager_state := tt; log := [ EvGetLoadedSkills ] |}).
Proof. reflexivity. Qed.

Example unknown_server_none_found :
  SkillMcp.formatAvailableMcps [ plain_skill ] = "  (none found)".
Proof. reflexivity. Qed.

(** C2 (the code at the failing input).  [toString] is a server of no skill,
    yet [mcpName in skill.mcpConfig] holds for it through the prototype of
    the configuration object: the lookup answers with the first configured
    skill, no not-found error is raised, and the Manager is called. *)
Theorem inherited_name_passes_for_a_server :
  SkillMcp.undeclared "toString" [ db_skill; notes_skill ]
  /\ SkillMcp.findMcpServer "toString" [ db_skill; notes_skill ]
     = Ok (Some (db_skill, Inherited "toString"))
  /\ SkillMcp.execute (manager := silent_manager) [ db_skill; notes_skill ]
       (call "toString" (Some "query") None None None) fresh_world
     = (Ok "{}",
        {| currentSessionID := None;
           manager_state := tt;
           log := [ EvGetLoadedSkills;
                    EvGetSessionID;
                    EvManager (CallTool {| serverName := "toString";
                                           info_skillName := "db";
                                           sessionID := "unknown" |}
                                        {| config := Inherited "toString";
                                           ctx_skillName := "db" |}
                                        "query" (JObject [])) ] |}).
Proof.
  split; [|split; reflexivity].
  intros skill props [<-|[<-|[]]] Hcfg; inversion Hcfg; subst; simpl;
    intros [Habs|[]]; discriminate Habs.
Qed.

(** ** The capability listing *)

(** C5 (the code at the failing input).  Every discovery call for the server
    [sqlite] fails with a rejected promise: [.catch(() => [])] swallows each
    rejection before the [catch] block that writes the failure note can see
    it, so the listing carries no failure note and is, to the letter, the
    listing of a server that answered and exposed nothing. *)
Lemma rejected_discovery_leaves_no_note :
  exists text w',
    SkillTool.formatMcpCapabilities (manager := rejecting_manager) db_skill "s1" fresh_world
      = (Ok (Some text), w')
    /\ includes text "Failed to connect" = false
    /\ includes text "*No capabilities discovered*" = true
    /\ fst (SkillTool.formatMcpCapabilities (manager := silent_manager) db_skill "s1" fresh_world)
       = Ok (Some text).
Proof.
  eexists. eexists. split; [reflexivity|].
  split; [|split]; vm_compute; reflexivity.
Qed.

Lemma listing_completes_whatever_the_manager_does_witness :
  exists sections w',
    SkillTool.formatMcpCapabilities (manager := throwing_manager) db_skill "s1" fresh_world
      = (Ok (Some (join nl sections)), w')
    /\ forall serverName, In serverName (keys_of sibling_servers) ->
         In ("### " ++ serverName) sections
         /\ In (SkillTool.invoke_hint serverName) sections.
Proof.
  apply (proj1 (proj2 (listing_completes_whatever_the_manager_does
                         (manager := throwing_manager) db_skill "s1" fresh_world))
               sibling_servers).
  - reflexivity.
  - reflexivity.
  - vm_compute. discriminate.
Defined.

Example thrown_discovery_renders_note :
  fst (SkillTool.formatMcpCapabilities (manager := throwing_manager) db_skill "s1" fresh_world)
  = Ok (Some (nl ++ "## Available MCP Servers" ++ nl ++ nl
              ++ "### sqlite" ++ nl ++ nl
              ++ "*Failed to connect: spawn failed*" ++ nl ++ nl
              ++ "Use `skill_mcp` tool with `mcp_name=" ++ dq ++ "sqlite" ++ dq ++ "` to invoke."
              ++ nl)).
Proof. reflexivity. Qed.

(** ** The session hook *)

(** C8 (counterexample).  A session end that finds no tracked session makes
    no [disconnectSession] call; and when two sessions have been created and
    both end, one call is made in all. *)
Lemma session_end_without_tracked_session :
  ~ (forall (w : World N unit) (id : string),
       Plugin.disconnect_calls
         (log (snd (Plugin.event (manager := silent_manager) (Plugin.SessionDeleted id) w)))
       = Plugin.disconnect_calls (log w) +++ [ Some id ])
  /\ Plugin.event (manager := silent_manager) (Plugin.SessionDeleted "A") fresh_world
     = (Ok tt, fresh_world)
  /\ Plugin.disconnect_calls
       (log (Plugin.deliver (manager := silent_manager)
               [ Plugin.SessionCreated "A"; Plugin.SessionCreated "B";
                 Plugin.SessionDeleted "B"; Plugin.SessionDeleted "A" ] fresh_world))
     = [ Some "B" ].
Proof.
  split; [|split; reflexivity].
  intros Hall. specialize (Hall fresh_world "A"). vm_compute in Hall. discriminate Hall.
Qed.

Lemma session_end_disconnects_tracked_session_witness :
  exists r w',
    Plugin.event (manager := silent_manager) (Plugin.SessionDeleted "A") (world_in_session "A")
      = (r, w')
    /\ log w' = log (world_in_session "A")
                +++ [ EvManager (DisconnectSession (Some "A")) ]
                +++ match r with
                    | Ok _ => [ EvSetSession None ]
                    | Throw _ => []
                    end
    /\ Plugin.disconnect_calls (log w')
       = Plugin.disconnect_calls (log (world_in_session "A")) +++ [ Some "A" ]
    /\ (r = Ok tt -> currentSessionID w' = None)
    /\ (forall u s', @disconnectSession N unit silent_manager (Some "A")
                       (manager_state (world_in_session "A"))
                     = (Resolved u, s') -> r = Ok tt).
Proof.
  apply (proj1 (session_end_disconnects_tracked_session (manager := silent_manager)
                  (world_in_session "A") "A")).
  - reflexivity.
  - reflexivity.
Defined.

(** ** The skill loader *)

(** C6 (counterexample).  A bare mapping is recognized although one of its
    values has no command field; and the empty mapping, all of whose values
    have one, is not. *)
Lemma some_value_with_command_suffices :
  SkillLoader.recognize mixed_mapping = Some mixed_mapping
  /\ own_field "mcpServers" mixed_mapping = None
  /\ own_field "mcp" mixed_mapping = None
  /\ forallb SkillLoader.declares_command (values_of mixed_mapping) = false
  /\ SkillLoader.recognize (JObject [] : JValue N) = None
  /\ forallb SkillLoader.declares_command (values_of (JObject [] : JValue N)) = true.
Proof. repeat split. Qed.

Lemma sibling_file_shapes_and_priority_witness :
  SkillLoader.loadSkillFromPath (builtins := reading_builtins) (fs := one_skill_fs)
    "/skills/db/SKILL.md" "/skills/db" "db" "opencode" = Some loaded_db_skill
  /\ SkillLoader.loadMcpJsonFromDir (builtins := reading_builtins) (fs := one_skill_fs)
       "/skills/db" = Some sibling_servers
  /\ Frontmatter.parseSkillMcpConfigFromFrontmatter (builtins := reading_builtins) skill_md
     = Some (JObject [ ("memory", memory_config) ])
  /\ mcpConfig loaded_db_skill = Some sibling_servers.
Proof.
  split; [reflexivity|split; [reflexivity|split; [reflexivity|]]].
  apply (proj1 (proj2 (sibling_file_shapes_and_priority
                         (builtins := reading_builtins) (fs := one_skill_fs))
                      "/skills/db/SKILL.md" "/skills/db" "db" "opencode"
                      skill_md loaded_db_skill eq_refl eq_refl)).
  reflexivity.
Defined.

(* ================================================================== *)
(** * Part III: further properties of the sources                      *)
(* ================================================================== *)

(** ** tools/skill-mcp.ts *)

Section SkillMcpMore.
Import SkillMcp.
Context {Num : Type} {number : JsNumber Num} {builtins : Builtins Num}.
Context {S : Type} {manager : SkillMcpManager Num S}.

(** X1.  [parseArguments] yields the empty object for an absent or empty
    text, without reading it.  For any other text it yields exactly the value
    that [JSON.parse] read, provided that value is an object or an array;
    when [JSON.parse] throws, or reads [null] or a primitive, the call throws
    the "Invalid arguments JSON" error that quotes the reason (the parser's
    message, or "Arguments must be a JSON object") and ends with the
    offending text. *)
Theorem parseArguments_objects_or_quoted_error :
  forall argsJson : option string,
    match parseArguments argsJson with
    | Ok v =>
        ((argsJson = None \/ argsJson = Some EmptyString) /\ v = JObject [])
        \/ (exists text,
              argsJson = Some text /\ text <> EmptyString
              /\ JSON_parse text = Ok v
              /\ ((exists props, v = JObject props) \/ (exists items, v = JArray items)))
    | Throw msg =>
        exists text reason,
          argsJson = Some text /\ text <> EmptyString
          /\ msg = "Invalid arguments JSON: " ++ reason ++ nl ++ nl
                   ++ "Expected a valid JSON object, e.g.: '{" ++ dq ++ "key" ++ dq ++ ": "
                   ++ dq ++ "value" ++ dq ++ "}'" ++ nl
                   ++ "Received: " ++ text
          /\ (JSON_parse text = Throw reason
              \/ (exists parsed,
                    JSON_parse text = Ok parsed
                    /\ (forall props, parsed <> JObject props)
                    /\ (forall items, parsed <> JArray items)
                    /\ reason = "Arguments must be a JSON object"))
    end.
Proof.
  intros [text|]; simpl.
  2:{ left. split; [left; reflexivity|reflexivity]. }
  destruct text as [|c text]; simpl.
  { left. split; [right; reflexivity|reflexivity]. }
  destruct (JSON_parse (String c text)) as [parsed|why] eqn:Hparse.
  - destruct parsed as [|b|n|s|items|props]; simpl;
      try (exists (String c text), "Arguments must be a JSON object";
           split; [reflexivity|split; [discriminate|split; [reflexivity|]]];
           right; eexists; split; [exact Hparse|];
           repeat split; intros; discriminate).
    + right. exists (String c text).
      split; [reflexivity|split; [discriminate|split; [exact Hparse|]]].
      right. exists items. reflexivity.
    + right. exists (String c text).
      split; [reflexivity|split; [discriminate|split; [exact Hparse|]]].
      left. exists props. reflexivity.
  - exists (String c text), why.
    split; [reflexivity|split; [discriminate|split; [reflexivity|]]].
    left. exact Hparse.
Qed.

(** What the one operation of a valid call is made of. *)
Lemma single_operation_selector (args : Args) (op : OperationInfo) :
  validateOperationParams args = Ok op ->
  match type op with
  | OpTool => tool_name args = Some (op_name op)
  | OpResource => resource_name args = Some (op_name op)
  | OpPrompt => prompt_name args = Some (op_name op)
  end.
Proof.
  unfold validateOperationParams, operations, push_if.
  destruct (tool_name args) as [t|]; [destruct (truthy t)|];
    (destruct (resource_name args) as [r|]; [destruct (truthy r)|]);
    (destruct (prompt_name args) as [q|]; [destruct (truthy q)|]);
    simpl; intros Hv; inversion Hv; subst; reflexivity.
Qed.

Lemma getSessionID_run (w : World Num S) :
  getSessionID w =
    (Ok (match currentSessionID w with
         | Some sid => if truthy sid then sid else "unknown"
         | None => "unknown"
         end),
     {| currentSessionID := currentSessionID w;
        manager_state := manager_state w;
        log := log w +++ [ EvGetSessionID ] |}).
Proof. reflexivity. Qed.

Lemma getSessionID_not_empty (w : World Num S) :
  exists sid, fst (getSessionID w) = Ok sid /\ sid <> EmptyString.
Proof.
  rewrite getSessionID_run. simpl.
  destruct (currentSessionID w) as [[|c sid]|]; simpl; eexists; split;
    try reflexivity; discriminate.
Qed.

(** X2.  When the server is found but the arguments text is refused, the
    call throws the arguments error after it has read the skills and the
    session id, and the Manager is neither called nor changed. *)
Theorem bad_arguments_stop_before_manager :
  forall (skills : list (LoadedSkill Num)) (args : Args) (w : World Num S)
         (op : OperationInfo) (found : Found) (msg : string),
    validateOperationParams args = Ok op ->
    findMcpServer (mcp_name args) skills = Ok (Some found) ->
    parseArguments (arguments args) = Throw msg ->
    execute skills args w =
      (Throw msg,
       {| currentSessionID := currentSessionID w;
          manager_state := manager_state w;
          log := log w +++ [ EvGetLoadedSkills; EvGetSessionID ] |}).
Proof.
  intros skills args w op [skill cfg] msg Hv Hf Hp.
  unfold execute, getSessionID, bind, lift, emit, modify, get_world, ret, throw.
  rewrite Hv. simpl. rewrite Hf. simpl. rewrite Hp. simpl.
  rewrite <- app_assoc. reflexivity.
Qed.


End SkillMcpMore.

Section SkillMcpCalls.
Import SkillMcp.
Context {Num : Type} {number : JsNumber Num} {builtins : Builtins Num}.
Context {S : Type} {manager : SkillMcpManager Num S}.

Lemma tracked_or_unknown_not_empty (tracked : option string) :
  match tracked with
  | Some sid => if truthy sid then sid else "unknown"
  | None => "unknown"
  end <> EmptyString.
Proof.
  destruct tracked as [[|c sid]|]; simpl; discriminate.
Qed.

(** X4.  Whatever its arguments and whatever the Manager answers, one call
    of the tool makes at most one Manager call.  That call is the operation
    the one given selector names (callTool for tool_name, readResource for
    resource_name, getPrompt for prompt_name), for the server of [mcp_name],
    under a session id that is never empty, and with the same skill name in
    its [info] and its [context]; no discovery and no disconnect is made. *)
Theorem execute_calls_manager_at_most_once :
  forall (skills : list (LoadedSkill Num)) (args : Args) (w : World Num S),
    exists evs,
      log (snd (execute skills args w)) = log w +++ evs
      /\ length (manager_calls evs) <= 1
      /\ forall c, In c (manager_calls evs) ->
           match c with
           | CallTool info ctx n _ =>
               tool_name args = Some n
               /\ serverName info = mcp_name args
               /\ sessionID info <> EmptyString
               /\ info_skillName info = ctx_skillName ctx
           | ReadResource info ctx u =>
               resource_name args = Some u
               /\ serverName info = mcp_name args
               /\ sessionID info <> EmptyString
               /\ info_skillName info = ctx_skillName ctx
           | GetPrompt info ctx n _ =>
               prompt_name args = Some n
               /\ serverName info = mcp_name args
               /\ sessionID info <> EmptyString
               /\ info_skillName info = ctx_skillName ctx
           | _ => False
           end.
Proof.
  intros skills args w.
  unfold execute, getSessionID, await, invoke, bind, lift, emit, modify, get_world, ret, throw.
  destruct (validateOperationParams args) as [op|m] eqn:Hv; simpl.
  2:{ exists []. rewrite app_nil_r. split; [reflexivity|split; [simpl; lia|intros c []]]. }
  pose proof (single_operation_selector args op Hv) as Hsel.
  destruct (findMcpServer (mcp_name args) skills) as [[[skill cfg]|]|m]; simpl;
    try (exists [ EvGetLoadedSkills ];
         split; [reflexivity|split; [simpl; lia|intros c []]]).
  destruct (parseArguments (arguments args)) as [parsed|m]; simpl.
  2:{ exists [ EvGetLoadedSkills; EvGetSessionID ]. rewrite <- app_assoc.
      split; [reflexivity|split; [simpl; lia|intros c []]]. }
  pose proof (tracked_or_unknown_not_empty (currentSessionID w)) as Hsid.
  destruct (type op) eqn:Ht; simpl.
  - match goal with
    | |- context [callTool ?i ?x ?n ?a ?s] =>
        destruct (callTool i x n a s) as [[r|m|m] s1]
    end; simpl;
      (eexists; split; [rewrite <- !app_assoc; reflexivity|];
       split; [simpl; lia|];
       simpl; intros c [<-|[]]; simpl; repeat split; assumption).
  - match goal with
    | |- context [readResource ?i ?x ?n ?s] =>
        destruct (readResource i x n s) as [[r|m|m] s1]
    end; simpl;
      (eexists; split; [rewrite <- !app_assoc; reflexivity|];
       split; [simpl; lia|];
       simpl; intros c [<-|[]]; simpl; repeat split; assumption).
  - destruct (string_entries (entries_of parsed)) as [stringArgs|m]; simpl.
    2:{ exists [ EvGetLoadedSkills; EvGetSessionID ]. rewrite <- app_assoc.
        split; [reflexivity|split; [simpl; lia|intros c []]]. }
    match goal with
    | |- context [getPrompt ?i ?x ?n ?a ?s] =>
        destruct (getPrompt i x n a s) as [[r|m|m] s1]
    end; simpl;
      (eexists; split; [rewrite <- !app_assoc; reflexivity|];
       split; [simpl; lia|];
       simpl; intros c [<-|[]]; simpl; repeat split; assumption).
Qed.

(** X5.  With a tool selector, a server that is found and arguments that
    parse, the call hands the Manager's answer through: a resolved result is
    printed by [JSON.stringify] and then filtered by [grep]; an error, whether
    thrown or rejected, is rethrown with its message untouched. *)
Theorem tool_call_passes_manager_answer :
  forall (skills : list (LoadedSkill Num)) (args : Args) (w : World Num S)
         (op : OperationInfo) (skill : LoadedSkill Num) (cfg : Member (JValue Num))
         (parsed : JValue Num),
    validateOperationParams args = Ok op ->
    type op = OpTool ->
    findMcpServer (mcp_name args) skills = Ok (Some (skill, cfg)) ->
    parseArguments (arguments args) = Ok parsed ->
    fst (execute skills args w) =
      match fst (callTool {| serverName := mcp_name args;
                             info_skillName := name skill;
                             sessionID := match currentSessionID w with
                                          | Some sid => if truthy sid then sid else "unknown"
                                          | None => "unknown"
                                          end |}
                          {| config := cfg; ctx_skillName := name skill |}
                          (op_name op) parsed (manager_state w)) with
      | Resolved result => Ok (applyGrepFilter (JSON_stringify result) (grep args))
      | Rejected msg => Throw msg
      | Thrown msg => Throw msg
      end.
Proof.
  intros skills args w op skill cfg parsed Hv Ht Hf Hp.
  unfold execute, getSessionID, await, invoke, bind, lift, emit, modify, get_world, ret, throw.
  rewrite Hv. simpl. rewrite Hf. simpl. rewrite Hp. simpl. rewrite Ht. simpl.
  match goal with
  | |- context [callTool ?i ?x ?n ?a ?s] =>
      destruct (callTool i x n a s) as [[r|m|m] s1]
  end; reflexivity.
Qed.

(** X6.  The prompt arguments are the entries of the parsed object with
    every value converted by [String]: the keys keep their order, except that
    the key [__proto__] never comes through; and the conversion fails as a
    whole as soon as the conversion of one value does. *)
Theorem prompt_arguments_are_converted_entries :
  forall (entries : list (string * JValue Num)),
    match string_entries entries with
    | Ok stringArgs =>
        map fst stringArgs
          = filter (fun key => negb (String.eqb key "__proto__")) (map fst entries)
        /\ (forall key s, In (key, s) stringArgs ->
              exists value, In (key, value) entries /\ js_String value = Ok s)
        /\ (forall key value, In (key, value) entries -> exists s, js_String value = Ok s)
    | Throw msg =>
        exists key value, In (key, value) entries /\ js_String value = Throw msg
    end.
Proof.
  induction entries as [|[key value] entries IH]; simpl.
  - repeat split; intros; contradiction.
  - destruct (js_String value) as [s|msg] eqn:Hs.
    2:{ exists key, value. split; [left; reflexivity|exact Hs]. }
    destruct (string_entries entries) as [tail|msg].
    2:{ destruct IH as [k [v [Hin Hv]]]. exists k, v. split; [right; exact Hin|exact Hv]. }
    destruct IH as [Hkeys [Hsound Hall]].
    split; [|split].
    + destruct (String.eqb key "__proto__"); simpl; rewrite Hkeys; reflexivity.
    + intros k s' Hin.
      assert (Hcases : (k, s') = (key, s) \/ In (k, s') tail).
      { destruct (String.eqb key "__proto__"); [right; exact Hin|].
        destruct Hin as [Heq|Hin]; [left; symmetry; exact Heq|right; exact Hin]. }
      destruct Hcases as [Heq|Hin'].
      * inversion Heq; subst. exists value. split; [left; reflexivity|exact Hs].
      * destruct (Hsound _ _ Hin') as [v [Hv1 Hv2]]. exists v. split; [right; exact Hv1|exact Hv2].
    + intros k v [Heq|Hin].
      * inversion Heq; subst. exists s. exact Hs.
      * apply (Hall _ _ Hin).
Qed.

End SkillMcpCalls.

(** ** index.ts *)

Section HookMore.
Import Plugin.
Context {Num S : Type} {manager : SkillMcpManager Num S}.

Lemma session_created_run (w : World Num S) (id : string) :
  event (SessionCreated id) w =
    (Ok tt, {| currentSessionID := Some id;
               manager_state := manager_state w;
               log := log w +++ [ EvSetSession (Some id) ] |}).
Proof. reflexivity. Qed.

Lemma other_event_run (w : World Num S) (type : string) :
  event (OtherEvent type) w = (Ok tt, w).
Proof. reflexivity. Qed.

Lemma manager_calls_app (l1 l2 : list (Event Num)) :
  manager_calls (l1 +++ l2) = manager_calls l1 +++ manager_calls l2.
Proof. unfold manager_calls. apply flat_map_app. Qed.

(** X7.  A session-created notification makes its session the current one,
    over whatever was current before, without touching the Manager; from then
    on the tools are given that id as their session id, or [unknown] when the
    id is the empty string. *)
Theorem created_session_becomes_current :
  forall (w : World Num S) (id : string),
    fst (event (SessionCreated id) w) = Ok tt
    /\ currentSessionID (snd (event (SessionCreated id) w)) = Some id
    /\ manager_state (snd (event (SessionCreated id) w)) = manager_state w
    /\ manager_calls (log (snd (event (SessionCreated id) w))) = manager_calls (log w)
    /\ fst (getSessionID (snd (event (SessionCreated id) w)))
       = Ok (if truthy id then id else "unknown").
Proof.
  intros w id. rewrite session_created_run. simpl.
  repeat split.
  rewrite manager_calls_app. simpl. apply app_nil_r.
Qed.

(** X8.  When [disconnectSession] fails at a session end, the hook fails
    with the same message and the session stays current, so that the next
    session end asks for the same disconnect again. *)
Theorem failed_disconnect_is_retried :
  forall (w : World Num S) (id id' sid msg : string) (s1 : S),
    currentSessionID w = Some sid ->
    truthy sid = true ->
    (disconnectSession (Some sid) (manager_state w) = (Rejected msg, s1)
     \/ disconnectSession (Some sid) (manager_state w) = (Thrown msg, s1)) ->
    fst (event (SessionDeleted id) w) = Throw msg
    /\ currentSessionID (snd (event (SessionDeleted id) w)) = Some sid
    /\ disconnect_calls (log (snd (event (SessionDeleted id')
                                         (snd (event (SessionDeleted id) w)))))
       = disconnect_calls (log w) +++ [ Some sid; Some sid ].
Proof.
  intros w id id' sid msg s1 Hcur Ht Hfail.
  rewrite (session_end_tracked w id sid Hcur Ht).
  assert (Hstep : forall (w1 : World Num S),
            currentSessionID w1 = Some sid ->
            disconnect_calls (log (snd (event (SessionDeleted id') w1)))
            = disconnect_calls (log w1) +++ [ Some sid ]).
  { intros w1 Hcur1. rewrite (session_end_tracked w1 id' sid Hcur1 Ht).
    destruct (disconnectSession (Some sid) (manager_state w1)) as [[u|m|m] s2];
      simpl; rewrite !disconnect_calls_app; simpl; rewrite ?app_nil_r; reflexivity. }
  destruct Hfail as [Hfail|Hfail]; rewrite Hfail; simpl;
    (split; [reflexivity|split; [reflexivity|]]);
    rewrite Hstep by reflexivity; simpl;
    rewrite disconnect_calls_app, <- app_assoc; reflexivity.
Qed.

(** What one notification does to the tracked id and to the disconnect
    calls. *)
Lemma event_step (e : HostEvent) (w : World Num S) :
  exists calls,
    disconnect_calls (log (snd (event e w))) = disconnect_calls (log w) +++ calls
    /\ (forall c, In c calls ->
          exists sid, c = Some sid /\ truthy sid = true /\ currentSessionID w = Some sid)
    /\ (forall sid, currentSessionID (snd (event e w)) = Some sid ->
          currentSessionID w = Some sid \/ e = SessionCreated sid).
Proof.
  destruct e as [id|id|type].
  - rewrite session_created_run. simpl. exists [].
    rewrite disconnect_calls_app. simpl.
    split; [reflexivity|split; [intros c []|]].
    intros sid Heq. right. congruence.
  - destruct (currentSessionID w) as [sid|] eqn:Hcur.
    + destruct (truthy sid) eqn:Ht.
      * rewrite (session_end_tracked w id sid Hcur Ht).
        exists [ Some sid ].
        destruct (disconnectSession (Some sid) (manager_state w)) as [[u|m|m] s1];
          simpl; rewrite !disconnect_calls_app; simpl; rewrite ?app_nil_r;
          (split; [reflexivity|split]);
          try (intros c [<-|[]]; exists sid; repeat split; assumption);
          intros sid' Heq; try discriminate; left; exact Heq.
      * rewrite session_end_untracked by (rewrite Hcur; exact Ht).
        exists []. simpl. rewrite app_nil_r.
        split; [reflexivity|split; [intros c []|]]. intros sid' Heq. left. congruence.
    + rewrite session_end_untracked by (rewrite Hcur; reflexivity).
      exists []. simpl. rewrite app_nil_r.
      split; [reflexivity|split; [intros c []|]]. intros sid' Heq. left. congruence.
  - rewrite other_event_run. exists []. simpl. rewrite app_nil_r.
    split; [reflexivity|split; [intros c []|]]. intros sid' Heq. left. exact Heq.
Qed.

(** X9.  Over any sequence of notifications and with any Manager, every
    [disconnectSession] call names a session that was current: its argument
    is a non-empty id that was either current at the start or announced by a
    session-created notification of the sequence.  No call is ever made with
    a cleared id, an empty id, or an id the hook was never told of. *)
Theorem disconnects_name_tracked_sessions :
  forall (es : list HostEvent) (w : World Num S),
    exists calls,
      disconnect_calls (log (deliver es w)) = disconnect_calls (log w) +++ calls
      /\ forall c, In c calls ->
           exists sid, c = Some sid /\ truthy sid = true
                       /\ (currentSessionID w = Some sid \/ In sid (created_ids es)).
Proof.
  induction es as [|e es IH]; intros w; simpl.
  - exists []. rewrite app_nil_r. split; [reflexivity|intros c []].
  - destruct (event_step e w) as [first [Hfirst [Hnames Hcur]]].
    destruct (IH (snd (event e w))) as [later [Hlater Hlnames]].
    exists (first +++ later). split.
    + rewrite Hlater, Hfirst, app_assoc. reflexivity.
    + intros c Hin. apply in_app_or in Hin. destruct Hin as [Hin|Hin].
      * destruct (Hnames c Hin) as [sid [Hc [Ht Hw]]].
        exists sid. split; [exact Hc|split; [exact Ht|left; exact Hw]].
      * destruct (Hlnames c Hin) as [sid [Hc [Ht [Hw|Hcr]]]];
          exists sid; (split; [exact Hc|split; [exact Ht|]]).
        -- destruct (Hcur sid Hw) as [Hold|Hnew].
           ++ left. exact Hold.
           ++ right. subst e. simpl. left. reflexivity.
        -- right. unfold created_ids in *. simpl. apply in_or_app. right. exact Hcr.
Qed.

(** The tracked id counts for one pending disconnect. *)
Lemma event_budget (e : HostEvent) (w : World Num S) :
  (forall sid s, fst (disconnectSession sid s) = Resolved tt) ->
  length (disconnect_calls (log (snd (event e w))))
  + (if truthy_opt (currentSessionID (snd (event e w))) then 1 else 0)
  <= length (disconnect_calls (log w))
     + (if truthy_opt (currentSessionID w) then 1 else 0)
     + length (created_ids [ e ]).
Proof.
  intros Hres. destruct e as [id|id|type].
  - rewrite session_created_run. simpl. rewrite disconnect_calls_app, length_app. simpl.
    destruct (truthy id); destruct (truthy_opt (currentSessionID w)); lia.
  - destruct (currentSessionID w) as [sid|] eqn:Hcur.
    + destruct (truthy sid) eqn:Ht.
      * rewrite (session_end_tracked w id sid Hcur Ht).
        pose proof (Hres (Some sid) (manager_state w)) as Hr.
        destruct (disconnectSession (Some sid) (manager_state w)) as [o s1].
        simpl in Hr. subst o. simpl.
        rewrite !disconnect_calls_app, !length_app. simpl. rewrite Ht. lia.
      * rewrite session_end_untracked by (rewrite Hcur; exact Ht).
        simpl. rewrite Hcur. simpl. lia.
    + rewrite session_end_untracked by (rewrite Hcur; reflexivity).
      simpl. rewrite Hcur. simpl. lia.
  - rewrite other_event_run. simpl. lia.
Qed.

(** X10.  With a Manager whose [disconnectSession] resolves, a session is
    disconnected at most once per creation: over any sequence of
    notifications the number of disconnect calls is at most the number of
    session-created notifications, plus one if a session was current at the
    start. *)
Theorem one_disconnect_per_created_session :
  forall (es : list HostEvent) (w : World Num S),
    (forall sid s, fst (disconnectSession sid s) = Resolved tt) ->
    length (disconnect_calls (log (deliver es w)))
    <= length (disconnect_calls (log w))
       + (if truthy_opt (currentSessionID w) then 1 else 0)
       + length (created_ids es).
Proof.
  intros es w Hres. revert w.
  induction es as [|e es IH]; intros w.
  - simpl. lia.
  - cbn [deliver].
    pose proof (event_budget e w Hres) as Hstep.
    pose proof (IH (snd (event e w))) as Hrest.
    assert (Hlen : length (created_ids (e :: es))
                   = length (created_ids [ e ]) + length (created_ids es)).
    { unfold created_ids. simpl. rewrite app_nil_r, length_app. reflexivity. }
    rewrite Hlen. lia.
Qed.

End HookMore.

(** ** utils/frontmatter.ts *)

Section FrontmatterMore.
Import Frontmatter.

Lemma strip_prefix_sound (p s r : string) : strip_prefix p s = Some r -> s = p ++ r.
Proof.
  revert s. induction p as [|a p IH]; intros s; simpl.
  - intros Heq. inversion Heq. reflexivity.
  - destruct s as [|b s]; [discriminate|].
    destruct (Ascii.eqb a b) eqn:E; [|discriminate].
    apply Ascii.eqb_eq in E. subst b. intros Hs. rewrite (IH _ Hs). reflexivity.
Qed.

Lemma strip_prefix_complete (p r : string) : strip_prefix p (p ++ r) = Some r.
Proof.
  induction p as [|a p IH]; simpl; [reflexivity|].
  rewrite Ascii.eqb_refl. exact IH.
Qed.

Lemma line_break_then_sound (tail s r : string) :
  line_break_then tail s = Some r -> exists br, line_break br /\ s = br ++ tail ++ r.
Proof.
  unfold line_break_then.
  destruct (strip_prefix (String CR (String LF tail)) s) as [r'|] eqn:E.
  - intros Heq. inversion Heq; subst. apply strip_prefix_sound in E.
    exists (String CR nl). split; [right; reflexivity|exact E].
  - intros Hs. apply strip_prefix_sound in Hs.
    exists nl. split; [left; reflexivity|exact Hs].
Qed.

Lemma line_break_then_complete (br tail r : string) :
  line_break br -> line_break_then tail (br ++ tail ++ r) = Some r.
Proof.
  intros [->| ->]; unfold line_break_then.
  - simpl. apply (strip_prefix_complete tail r).
  - change (String CR nl ++ tail ++ r) with (String CR (String LF tail) ++ r).
    rewrite strip_prefix_complete. reflexivity.
Qed.

Lemma lazy_group_sound (s group rest : string) :
  lazy_group s = Some (group, rest) ->
  exists br, line_break br /\ s = group ++ br ++ "---" ++ rest
  /\ forall a b, group = a ++ b -> b <> EmptyString ->
       line_break_then "---" (b ++ br ++ "---" ++ rest) = None.
Proof.
  revert group rest. induction s as [|c s IH]; intros group rest.
  - simpl. discriminate.
  - cbn [lazy_group].
    destruct (line_break_then "---" (String c s)) as [r|] eqn:E.
    + intros Heq. inversion Heq; subst.
      destruct (line_break_then_sound _ _ _ E) as [br [Hbr Hs]].
      exists br. split; [exact Hbr|split; [exact Hs|]].
      intros a b Hab Hb. destruct a; destruct b; simpl in Hab; try discriminate.
      congruence.
    + destruct (lazy_group s) as [[g r]|] eqn:Eg; [|discriminate].
      intros Heq. inversion Heq; subst.
      destruct (IH g rest eq_refl) as [br [Hbr [Hs Hmin]]].
      exists br. split; [exact Hbr|split; [simpl; f_equal; exact Hs|]].
      intros a b Hab Hb. destruct a as [|a0 a].
      * simpl in Hab. subst b. rewrite Hs in E. exact E.
      * simpl in Hab. inversion Hab; subst. apply (Hmin a b eq_refl Hb).
Qed.

Lemma lazy_group_at_fence (s rest : string) :
  line_break_then "---" s = Some rest -> lazy_group s = Some (EmptyString, rest).
Proof.
  intros Hf. destruct s; cbn [lazy_group]; rewrite Hf; reflexivity.
Qed.

Lemma lazy_group_complete (y br rest : string) :
  line_break br ->
  exists group tail rest',
    lazy_group (y ++ br ++ "---" ++ rest) = Some (group, rest') /\ y = group ++ tail.
Proof.
  intros Hbr. induction y as [|c y IH].
  - exists EmptyString, EmptyString, rest. split; [|reflexivity].
    apply lazy_group_at_fence.
    apply (line_break_then_complete br "---" rest). exact Hbr.
  - change (String c y ++ br ++ "---" ++ rest) with (String c (y ++ br ++ "---" ++ rest)).
    cbn [lazy_group].
    destruct (line_break_then "---" (String c (y ++ br ++ "---" ++ rest))) as [r|].
    + exists EmptyString, (String c y), r. split; reflexivity.
    + destruct IH as [g [tail [r [Hg Hy]]]]. rewrite Hg.
      exists (String c g), tail, r. split; [reflexivity|]. simpl. rewrite Hy. reflexivity.
Qed.

(** X11.  What the front-matter expression matches is a real decomposition
    of the document: the document is the opening fence, a line break, the
    captured text, a line break, the closing fence and the remainder, each
    line break being LF or CR LF; and the captured text is the shortest one
    possible, no closing fence starting inside it. *)
Theorem frontmatterMatch_decomposes :
  forall (content yaml rest : string),
    frontmatterMatch content = Some (yaml, rest) ->
    exists br1 br2,
      line_break br1 /\ line_break br2
      /\ content = "---" ++ br1 ++ yaml ++ br2 ++ "---" ++ rest
      /\ forall a b, yaml = a ++ b -> b <> EmptyString ->
           line_break_then "---" (b ++ br2 ++ "---" ++ rest) = None.
Proof.
  intros content yaml rest. unfold frontmatterMatch.
  destruct (strip_prefix "---" content) as [after|] eqn:E1; [|discriminate].
  destruct (line_break_then EmptyString after) as [inner|] eqn:E2; [|discriminate].
  intros Hg.
  apply strip_prefix_sound in E1.
  destruct (line_break_then_sound _ _ _ E2) as [br1 [Hbr1 Hafter]].
  destruct (lazy_group_sound _ _ _ Hg) as [br2 [Hbr2 [Hinner Hmin]]].
  exists br1, br2. split; [exact Hbr1|split; [exact Hbr2|split; [|exact Hmin]]].
  rewrite E1, Hafter. simpl ((EmptyString ++ _)%string). rewrite Hinner. reflexivity.
Qed.

(** X12.  Every document that opens with a fence line and has a closing
    fence after a line break is matched, and the captured text is a prefix
    of the text between the two fences (all of it when no fence starts
    earlier). *)
Theorem frontmatterMatch_finds_fenced_text :
  forall (br1 br2 y rest : string),
    line_break br1 -> line_break br2 ->
    exists yaml tail rest',
      frontmatterMatch ("---" ++ br1 ++ y ++ br2 ++ "---" ++ rest) = Some (yaml, rest')
      /\ y = yaml ++ tail.
Proof.
  intros br1 br2 y rest Hbr1 Hbr2. unfold frontmatterMatch.
  rewrite strip_prefix_complete.
  assert (Hopen : line_break_then EmptyString (br1 ++ y ++ br2 ++ "---" ++ rest)
                  = Some (y ++ br2 ++ "---" ++ rest)).
  { apply (line_break_then_complete br1 EmptyString). exact Hbr1. }
  rewrite Hopen. apply lazy_group_complete. exact Hbr2.
Qed.

End FrontmatterMore.

Section FrontmatterParsers.
Import Frontmatter.
Context {Num : Type} {number : JsNumber Num} {builtins : Builtins Num}.

(** X13.  [parseFrontmatter] never fails and its [data] is always a truthy
    value: an empty or falsy YAML document counts as the empty object.  When
    there is no front matter, or its YAML does not load, the data is the
    empty object and the body is the whole document, untouched. *)
Theorem parseFrontmatter_data_is_truthy :
  forall (content : string),
    truthy_value (data (parseFrontmatter content)) = true
    /\ (frontmatterMatch content = None ->
        parseFrontmatter content = {| data := JObject []; body := content |})
    /\ (forall yaml rest msg,
          frontmatterMatch content = Some (yaml, rest) -> yaml_load yaml = Throw msg ->
          parseFrontmatter content = {| data := JObject []; body := content |})
    /\ (forall yaml rest loaded,
          frontmatterMatch content = Some (yaml, rest) -> yaml_load yaml = Ok loaded ->
          body (parseFrontmatter content) = trim rest).
Proof.
  intros content. unfold parseFrontmatter.
  destruct (frontmatterMatch content) as [[yaml rest]|].
  - destruct (yaml_load yaml) as [loaded|msg] eqn:Hy.
    + split; [|split; [discriminate|split]].
      * simpl. destruct loaded as [d|]; [|reflexivity].
        destruct (truthy_value d) eqn:Hd; [exact Hd|reflexivity].
      * intros y r m Heq Hl. inversion Heq; subst. congruence.
      * intros y r l Heq Hl. inversion Heq; subst. reflexivity.
    + split; [reflexivity|split; [discriminate|split]].
      * intros; reflexivity.
      * intros y r l Heq Hl. inversion Heq; subst. congruence.
  - split; [reflexivity|split; [reflexivity|split]]; intros; discriminate.
Qed.

(** X14.  The two readers of the front matter agree: a configuration that
    [parseSkillMcpConfigFromFrontmatter] returns is truthy and is the [mcp]
    property of the data that [parseFrontmatter] returns for the same
    document. *)
Theorem frontmatter_mcp_is_the_mcp_field :
  forall (content : string) (cfg : JValue Num),
    parseSkillMcpConfigFromFrontmatter content = Some cfg ->
    truthy_value cfg = true
    /\ own_field "mcp" (data (parseFrontmatter content)) = Some cfg.
Proof.
  intros content cfg. unfold parseSkillMcpConfigFromFrontmatter, parseFrontmatter.
  destruct (frontmatterMatch content) as [[yaml rest]|]; [|discriminate].
  destruct (yaml_load yaml) as [[parsed|]|msg]; try discriminate.
  destruct (truthy_value parsed) eqn:Hp; [|discriminate].
  destruct (typeof_object parsed); [|discriminate].
  simpl. rewrite (truthy_member_literal _ _ mcp_literal).
  destruct (own_field "mcp" parsed) as [v|]; [|discriminate].
  destruct (truthy_value v) eqn:Hv; [|discriminate].
  intros Heq. inversion Heq; subst. split; [exact Hv|reflexivity].
Qed.

End FrontmatterParsers.

(** ** skill-loader.ts *)

Section MapFacts.
Context {V : Type}.
Import SkillLoader.

Lemma map_set_keys (key : string) (value : V) (m : list (string * V)) (k : string) :
  In k (map fst (map_set key value m)) <-> k = key \/ In k (map fst m).
Proof.
  induction m as [|[k0 v0] m IH]; simpl.
  - split; [intros [H|[]]; left; symmetry; exact H|intros [H|[]]; left; symmetry; exact H].
  - destruct (String.eqb key k0) eqn:E; simpl.
    + apply String.eqb_eq in E. subst k0. split.
      * intros [H|H]; [left; symmetry; exact H|right; right; exact H].
      * intros [H|[H|H]]; [left; symmetry; exact H|left; exact H|right; exact H].
    + rewrite IH. split.
      * intros [H|[H|H]]; [right; left; exact H|left; exact H|right; right; exact H].
      * intros [H|[H|H]]; [right; left; exact H|left; exact H|right; right; exact H].
Qed.

Lemma map_set_NoDup (key : string) (value : V) (m : list (string * V)) :
  NoDup (map fst m) -> NoDup (map fst (map_set key value m)).
Proof.
  induction m as [|[k0 v0] m IH]; simpl; intros Hnd.
  - constructor; [intros []|constructor].
  - inversion Hnd as [|? ? Hnot Hrest]; subst.
    destruct (String.eqb key k0) eqn:E; simpl.
    + apply String.eqb_eq in E. subst k0. constructor; assumption.
    + apply String.eqb_neq in E. constructor; [|apply IH; exact Hrest].
      rewrite map_set_keys. intros [Heq|Hin]; [congruence|contradiction].
Qed.

Lemma map_set_in (key : string) (value : V) (m : list (string * V)) (k : string) (v : V) :
  NoDup (map fst m) ->
  In (k, v) (map_set key value m) ->
  (k = key /\ v = value) \/ (In (k, v) m /\ k <> key).
Proof.
  induction m as [|[k0 v0] m IH]; simpl; intros Hnd Hin.
  - destruct Hin as [Heq|[]]. inversion Heq. left. split; reflexivity.
  - inversion Hnd as [|? ? Hnot Hrest]; subst.
    destruct (String.eqb key k0) eqn:E.
    + apply String.eqb_eq in E. subst k0. destruct Hin as [Heq|Hin].
      * inversion Heq. left. split; reflexivity.
      * right. split; [right; exact Hin|].
        intros ->. apply Hnot. apply (in_map fst) in Hin. exact Hin.
    + apply String.eqb_neq in E. destruct Hin as [Heq|Hin].
      * inversion Heq; subst. right. split; [left; reflexivity|congruence].
      * destruct (IH Hrest Hin) as [Hl|[Hr Hne]]; [left; exact Hl|].
        right. split; [right; exact Hr|exact Hne].
Qed.

End MapFacts.

Section DiscoveryFacts.
Import Frontmatter SkillLoader.
Context {Num : Type} {number : JsNumber Num} {builtins : Builtins Num}.
Context {fs : FileSystem} {dirs : Directories}.

Lemma prefix_app (p r : string) : String.prefix p (p ++ r) = true.
Proof.
  induction p as [|a p IH]; simpl; [destruct r; reflexivity|].
  destruct (ascii_dec a a); [exact IH|congruence].
Qed.

Lemma string_app_assoc (a b c : string) : (a ++ b) ++ c = a ++ b ++ c.
Proof.
  induction a as [|x a IH]; simpl; [reflexivity|]. rewrite IH. reflexivity.
Qed.

Lemma prefix_app_mid (a b d : string) : String.prefix (a ++ b) (a ++ b ++ d) = true.
Proof. rewrite <- string_app_assoc. apply prefix_app. Qed.

Lemma string_field_not_empty (key : string) (d : JValue Num) (fallback : string) :
  fallback <> EmptyString -> string_field key d fallback <> EmptyString.
Proof.
  intros Hf. unfold string_field.
  destruct (own_field key d) as [[| | |s| |]|]; try exact Hf.
  destruct s; simpl; [exact Hf|discriminate].
Qed.

Lemma frontmatter_mcp_truthy (content : string) (cfg : JValue Num) :
  parseSkillMcpConfigFromFrontmatter content = Some cfg -> truthy_value cfg = true.
Proof.
  unfold parseSkillMcpConfigFromFrontmatter, truthy_member.
  destruct (frontmatterMatch content) as [[yaml rest]|]; [|discriminate].
  destruct (yaml_load yaml) as [[parsed|]|msg]; try discriminate.
  destruct (truthy_value parsed && typeof_object parsed); [|discriminate].
  destruct (in_value "mcp" parsed); [|discriminate].
  destruct (get_value "mcp" parsed) as [v|k|]; try discriminate.
  destruct (truthy_value v) eqn:Hv; [|discriminate].
  intros Heq. inversion Heq; subst. exact Hv.
Qed.

(** X15.  A skill file that cannot be read gives no skill.  A skill file
    whose front matter has [name] and [description] of the declared type
    (each absent, falsy or a string) is loaded: the skill carries the path,
    directory and scope it was loaded with; its name is the front-matter name
    when that is a non-empty string and the default name otherwise, so it is
    never empty when the default name is not; its description opens with the
    scope tag; and its configuration, when it has one, is a truthy value. *)
Theorem loadSkillFromPath_result :
  forall (skillPath dir defaultName sc : string),
    (readFile skillPath = None -> loadSkillFromPath skillPath dir defaultName sc = None)
    /\ forall content,
         readFile skillPath = Some content ->
         typed_frontmatter (data (parseFrontmatter content)) ->
         exists skill,
           loadSkillFromPath skillPath dir defaultName sc = Some skill
           /\ path skill = skillPath
           /\ resolvedPath skill = dir
           /\ scope skill = sc
           /\ (forall s, own_field "name" (data (parseFrontmatter content)) = Some (JString s) ->
                         s <> EmptyString -> name skill = s)
           /\ ((forall s, s <> EmptyString ->
                          own_field "name" (data (parseFrontmatter content)) <> Some (JString s)) ->
               name skill = defaultName)
           /\ (defaultName <> EmptyString -> name skill <> EmptyString)
           /\ startsWith (description skill) ("(" ++ sc ++ " - Skill) ") = true
           /\ forall cfg, mcpConfig skill = Some cfg -> truthy_value cfg = true.
Proof.
  intros skillPath dir defaultName sc. unfold loadSkillFromPath.
  destruct (readFile skillPath) as [text|]; [|split; [reflexivity|discriminate]].
  split; [discriminate|].
  intros content Heq _. inversion Heq; subst; clear Heq.
  eexists. split; [reflexivity|]. simpl.
  split; [reflexivity|split; [reflexivity|split; [reflexivity|]]].
  split; [|split; [|split; [|split]]].
  - intros s Hname Hs. unfold string_field. rewrite Hname.
    destruct s; [congruence|reflexivity].
  - intros Hnone. unfold string_field.
    destruct (own_field "name" (data (parseFrontmatter content))) as [[| | |s| |]|];
      try reflexivity.
    destruct s as [|c s]; [reflexivity|].
    exfalso. apply (Hnone (String c s)); [discriminate|reflexivity].
  - apply string_field_not_empty.
  - exact (prefix_app_mid sc " - Skill) " _).
  - intros cfg. unfold or_else.
    destruct (loadMcpJsonFromDir dir) as [v|] eqn:Hj.
    + rewrite (loadMcpJsonFromDir_truthy _ _ Hj). intros Heq. inversion Heq; subst.
      apply (loadMcpJsonFromDir_truthy _ _ Hj).
    + apply frontmatter_mcp_truthy.
Qed.

Lemma loaded_skill_scope (skillPath dir defaultName sc : string) (skill : LoadedSkill Num) :
  loadSkillFromPath skillPath dir defaultName sc = Some skill -> scope skill = sc.
Proof.
  unfold loadSkillFromPath. destruct (readFile skillPath); [|discriminate].
  intros Heq. inversion Heq. reflexivity.
Qed.

Lemma load_entry_scope (skillsDir sc : string) (entry : Dirent) (skill : LoadedSkill Num) :
  load_entry skillsDir sc entry = Some skill ->
  scope skill = sc
  /\ startsWith (entry_name entry) "." = false
  /\ (entry_isDirectory entry || entry_isSymbolicLink entry = true
      \/ isMarkdownFile entry = true).
Proof.
  unfold load_entry.
  destruct (startsWith (entry_name entry) "."); [discriminate|].
  destruct (entry_isDirectory entry || entry_isSymbolicLink entry).
  - destruct (access _).
    + intros Hl. split; [|split; [reflexivity|left; reflexivity]].
      apply (loaded_skill_scope _ _ _ _ _ Hl).
    + destruct (access _); [|discriminate].
      intros Hl. split; [|split; [reflexivity|left; reflexivity]].
      apply (loaded_skill_scope _ _ _ _ _ Hl).
  - destruct (isMarkdownFile entry); [|discriminate].
    intros Hl. split; [|split; [reflexivity|right; reflexivity]].
    apply (loaded_skill_scope _ _ _ _ _ Hl).
Qed.

End DiscoveryFacts.

Section DirectoryWalk.
Import Frontmatter SkillLoader.
Context {Num : Type} {number : JsNumber Num} {builtins : Builtins Num}.
Context {fs : FileSystem} {dirs : Directories}.

(** X16.  A directory that cannot be listed yields no skill.  Otherwise each
    entry yields at most one skill, and every skill that is loaded comes from
    an entry whose name does not start with a dot and that is a directory, a
    symbolic link or a file named [*.md]; it carries the scope the directory
    was loaded under. *)
Theorem loadSkillsFromDir_skips_hidden_entries :
  forall (skillsDir sc : string),
    (readdir skillsDir = None -> loadSkillsFromDir skillsDir sc = [])
    /\ (forall entries, readdir skillsDir = Some entries ->
          length (loadSkillsFromDir skillsDir sc) <= length entries
          /\ forall skill, In skill (loadSkillsFromDir skillsDir sc) ->
               scope skill = sc
               /\ exists entry,
                    In entry entries
                    /\ load_entry skillsDir sc entry = Some skill
                    /\ startsWith (entry_name entry) "." = false
                    /\ (entry_isDirectory entry || entry_isSymbolicLink entry = true
                        \/ isMarkdownFile entry = true)).
Proof.
  intros skillsDir sc. unfold loadSkillsFromDir. split.
  - intros ->. reflexivity.
  - intros entries ->. split.
    + induction entries as [|e entries IH]; simpl; [lia|].
      rewrite length_app. destruct (load_entry skillsDir sc e); simpl; lia.
    + intros skill Hin. apply in_flat_map in Hin. destruct Hin as [entry [He Hs]].
      destruct (load_entry skillsDir sc entry) as [loaded|] eqn:Hl; [|destruct Hs].
      destruct Hs as [<-|[]].
      destruct (load_entry_scope _ _ _ _ Hl) as [Hsc [Hdot Hkind]].
      split; [exact Hsc|]. exists entry. repeat split; assumption.
Qed.

(** X17.  In a skill folder, SKILL.md is tried first and, once it is found
    to exist, it alone decides: the folder's skill is what loading SKILL.md
    gives, and when SKILL.md exists but cannot be read the folder yields no
    skill at all, the file named after the folder never being looked at. *)
Theorem skill_md_shadows_named_file :
  forall (skillsDir sc : string) (entry : Dirent),
    startsWith (entry_name entry) "." = false ->
    entry_isDirectory entry || entry_isSymbolicLink entry = true ->
    access (path_join (resolveSymlinkAsync (path_join skillsDir (entry_name entry)))
                      "SKILL.md") = true ->
    load_entry skillsDir sc entry =
      loadSkillFromPath
        (path_join (resolveSymlinkAsync (path_join skillsDir (entry_name entry))) "SKILL.md")
        (resolveSymlinkAsync (path_join skillsDir (entry_name entry)))
        (entry_name entry) sc
    /\ (readFile (path_join (resolveSymlinkAsync (path_join skillsDir (entry_name entry)))
                            "SKILL.md") = None ->
        load_entry skillsDir sc entry = None).
Proof.
  intros skillsDir sc entry Hdot Hdir Hacc.
  assert (Hl : load_entry skillsDir sc entry =
               loadSkillFromPath
                 (path_join (resolveSymlinkAsync (path_join skillsDir (entry_name entry)))
                            "SKILL.md")
                 (resolveSymlinkAsync (path_join skillsDir (entry_name entry)))
                 (entry_name entry) sc).
  { unfold load_entry. rewrite Hdot, Hdir, Hacc. reflexivity. }
  split; [exact Hl|].
  intros Hread. rewrite Hl. unfold loadSkillFromPath. rewrite Hread. reflexivity.
Qed.

(** The [skillMap] stays keyed by skill name, without repeated keys. *)
Lemma set_all_keyed (skills : list (LoadedSkill Num))
  (m : list (string * LoadedSkill Num)) :
  NoDup (map fst m) ->
  (forall k sk, In (k, sk) m -> name sk = k) ->
  NoDup (map fst (set_all skills m))
  /\ (forall k sk, In (k, sk) (set_all skills m) -> name sk = k).
Proof.
  revert m. induction skills as [|x skills IH]; intros m Hnd Hkey; simpl.
  - split; assumption.
  - apply IH.
    + apply map_set_NoDup. exact Hnd.
    + intros k sk Hin. destruct (map_set_in _ _ _ _ _ Hnd Hin) as [[-> ->]|[Hm _]].
      * reflexivity.
      * apply (Hkey _ _ Hm).
Qed.

Lemma set_all_in (skills : list (LoadedSkill Num))
  (m : list (string * LoadedSkill Num)) (k : string) (sk : LoadedSkill Num) :
  NoDup (map fst m) ->
  In (k, sk) (set_all skills m) ->
  In sk skills \/ (In (k, sk) m /\ ~ In k (map name skills)).
Proof.
  revert m. induction skills as [|x skills IH]; intros m Hnd Hin; simpl in *.
  - right. split; [exact Hin|intros []].
  - destruct (IH _ (map_set_NoDup (name x) x m Hnd) Hin) as [Hl|[Hm Hnot]].
    + left. right. exact Hl.
    + destruct (map_set_in _ _ _ _ _ Hnd Hm) as [[-> ->]|[Hm' Hne]].
      * left. left. reflexivity.
      * right. split; [exact Hm'|]. intros [Heq|Hin']; [congruence|contradiction].
Qed.

Lemma set_all_keys (skills : list (LoadedSkill Num))
  (m : list (string * LoadedSkill Num)) (k : string) :
  In k (map fst (set_all skills m)) <-> In k (map name skills) \/ In k (map fst m).
Proof.
  revert m. induction skills as [|x skills IH]; intros m; simpl.
  - split; [intros Hin; right; exact Hin|intros [[]|Hin]; exact Hin].
  - rewrite IH, map_set_keys. split.
    + intros [H|[H|H]]; [left; right; exact H|left; left; symmetry; exact H|right; exact H].
    + intros [[H|H]|H]; [right; left; symmetry; exact H|left; exact H|right; right; exact H].
Qed.

Lemma keyed_names (m : list (string * LoadedSkill Num)) :
  (forall k sk, In (k, sk) m -> name sk = k) -> map name (map snd m) = map fst m.
Proof.
  induction m as [|[k sk] m IH]; simpl; intros Hkey; [reflexivity|].
  rewrite (Hkey k sk (or_introl eq_refl)), IH; [reflexivity|].
  intros k' sk' Hin. apply Hkey. right. exact Hin.
Qed.

(** X18.  When the front matter of every skill file has [name] and
    [description] of the declared type (each absent, falsy or a string), the
    discovered skills have pairwise different names.  Every one
    of them was loaded from the project directory or from the global one, and
    a global skill is kept only if no project skill has its name: project
    skills win.  No name is lost: each skill loaded from either directory has
    its name among the discovered ones. *)
Theorem discoverSkills_project_wins :
  typed_skill_files ->
  NoDup (map name discoverSkills)
  /\ (forall skill, In skill discoverSkills ->
        (In skill discoverOpencodeProjectSkills /\ scope skill = "opencode-project")
        \/ (In skill discoverOpencodeGlobalSkills /\ scope skill = "opencode"
            /\ ~ In (name skill) (map name discoverOpencodeProjectSkills)))
  /\ (forall skill,
        In skill discoverOpencodeProjectSkills \/ In skill discoverOpencodeGlobalSkills ->
        In (name skill) (map name discoverSkills)).
Proof.
  intros _. unfold discoverSkills, dedupe.
  set (project := discoverOpencodeProjectSkills).
  set (global := discoverOpencodeGlobalSkills).
  assert (Hg : NoDup (map fst (set_all global []))
               /\ forall k sk, In (k, sk) (set_all global []) -> name sk = k).
  { apply set_all_keyed; [constructor|intros k sk []]. }
  destruct Hg as [Hgnd Hgkey].
  destruct (set_all_keyed project (set_all global []) Hgnd Hgkey) as [Hnd Hkey].
  assert (Hscope : forall dir sc skill,
            In skill (loadSkillsFromDir dir sc) -> scope skill = sc).
  { intros dir sc skill Hin. unfold loadSkillsFromDir in Hin.
    apply in_flat_map in Hin. destruct Hin as [entry [_ Hs]].
    destruct (load_entry dir sc entry) as [loaded|] eqn:Hl; [|destruct Hs].
    destruct Hs as [<-|[]]. apply (load_entry_scope _ _ _ _ Hl). }
  split; [|split].
  - rewrite (keyed_names _ Hkey). exact Hnd.
  - intros skill Hin. apply in_map_iff in Hin. destruct Hin as [[k sk] [Heq Hin]].
    simpl in Heq. subst sk.
    pose proof (Hkey _ _ Hin) as Hname.
    destruct (set_all_in _ _ _ _ Hgnd Hin) as [Hp|[Hm Hnot]].
    + left. split; [exact Hp|]. apply (Hscope _ _ _ Hp).
    + right. destruct (set_all_in global [] k skill (NoDup_nil _) Hm) as [Hgl|[[] _]].
      split; [exact Hgl|split; [apply (Hscope _ _ _ Hgl)|]].
      rewrite Hname. exact Hnot.
  - intros skill Hin. rewrite (keyed_names _ Hkey). apply set_all_keys.
    destruct Hin as [Hp|Hgl].
    + left. apply in_map. exact Hp.
    + right. apply set_all_keys. left. apply in_map. exact Hgl.
Qed.

End DirectoryWalk.

(** ** tools/skill.ts *)

Section SubstringFacts.

Lemma includes_prefix (s p : string) : String.prefix p s = true -> includes s p = true.
Proof.
  intros Hp. destruct s; cbn [includes]; rewrite Hp; reflexivity.
Qed.

Lemma includes_app_r (x s p : string) : includes s p = true -> includes (x ++ s) p = true.
Proof.
  intros Hs. induction x as [|c x IH]; [exact Hs|].
  change (String c x ++ s) with (String c (x ++ s)). cbn [includes].
  rewrite IH. apply orb_true_r.
Qed.

Lemma prefix_app_l (p s y : string) :
  String.prefix p s = true -> String.prefix p (s ++ y) = true.
Proof.
  revert s. induction p as [|a p IH]; intros s; simpl.
  - intros _. destruct (s ++ y); reflexivity.
  - destruct s as [|b s]; [discriminate|]. simpl.
    destruct (ascii_dec a b); [apply IH|discriminate].
Qed.

Lemma includes_app_l (s y p : string) : includes s p = true -> includes (s ++ y) p = true.
Proof.
  induction s as [|c s IH].
  - intros Hp. destruct p as [|a p]; [|simpl in Hp; discriminate].
    apply includes_prefix. destruct (EmptyString ++ y); reflexivity.
  - change (String c s ++ y) with (String c (s ++ y)). cbn [includes].
    intros Hs. apply orb_true_iff in Hs. destruct Hs as [Hp|Hs].
    + change (String c (s ++ y)) with (String c s ++ y).
      rewrite (prefix_app_l p (String c s) y Hp). reflexivity.
    + rewrite (IH Hs). apply orb_true_r.
Qed.

Lemma includes_self (p : string) : includes p p = true.
Proof.
  apply includes_prefix. induction p as [|c p IH]; simpl; [reflexivity|].
  destruct (ascii_dec c c); [exact IH|congruence].
Qed.

Lemma includes_join (sep x : string) (l : list string) (p : string) :
  In x l -> includes x p = true -> includes (join sep l) p = true.
Proof.
  induction l as [|y l IH]; [intros []|].
  intros Hin Hp. destruct l as [|z l].
  - destruct Hin as [->|[]]. exact Hp.
  - rewrite join_cons by discriminate. destruct Hin as [->|Hin].
    + apply includes_app_l. exact Hp.
    + apply includes_app_r, includes_app_r. apply IH; assumption.
Qed.

End SubstringFacts.

Section DescriptionFacts.
Import SkillTool.
Context {Num : Type}.

Lemma skill_xml_advertises (info : SkillInfo) :
  includes (skill_xml info) (advertisement (info_name info) (info_description info)) = true.
Proof.
  unfold skill_xml, advertisement.
  rewrite join_cons by discriminate.
  apply includes_app_r, includes_app_r.
  rewrite join_cons by discriminate.
  rewrite join_cons by discriminate.
  match goal with
  | |- includes (?a ++ nl ++ ?b ++ nl ++ ?c) ?p = true =>
      replace (a ++ nl ++ b ++ nl ++ c) with (p ++ nl ++ c)
  end.
  - apply includes_app_l, includes_self.
  - rewrite !string_app_assoc. reflexivity.
Qed.

(** X19.  Without skills the tool description is the fixed sentence saying
    that none is available.  With skills it opens with the general
    instructions and then advertises every loaded skill: the name and the
    description of each one appear in it, in their [<name>] and
    [<description>] elements. *)
Theorem tool_description_advertises_every_skill :
  forall (skills : list (LoadedSkill Num)),
    (skills = [] -> tool_description skills = TOOL_DESCRIPTION_NO_SKILLS)
    /\ (skills <> [] ->
        startsWith (tool_description skills) TOOL_DESCRIPTION_PREFIX = true
        /\ includes (tool_description skills) "<available_skills>" = true
        /\ forall skill, In skill skills ->
             includes (tool_description skills)
                      (advertisement (name skill) (description skill)) = true).
Proof.
  intros skills. split; [intros ->; reflexivity|].
  intros Hne. unfold tool_description, formatSkillsXml.
  rewrite length_map.
  destruct skills as [|first others]; [congruence|]. cbn [length Nat.eqb].
  split; [apply prefix_app|split].
  - apply includes_app_r, includes_app_r, includes_app_r.
    apply includes_app_l, includes_self.
  - intros skill Hin.
    apply includes_app_r, includes_app_r, includes_app_r, includes_app_r, includes_app_r.
    apply includes_app_l.
    apply (includes_join nl (skill_xml (loadedSkillToInfo skill))).
    + apply in_map. apply (in_map loadedSkillToInfo). exact Hin.
    + apply (skill_xml_advertises (loadedSkillToInfo skill)).
Qed.

End DescriptionFacts.

Section DiscoveryCalls.
Import SkillTool.
Context {Num : Type} {number : JsNumber Num} {builtins : Builtins Num}.
Context {S : Type} {manager : SkillMcpManager Num S}.

Lemma server_section_calls (skill : LoadedSkill Num) (sessionID : string)
  (entry : string * JValue Num) (w : World Num S) :
  (forall info ctx s msg, fst (listTools info ctx s) <> Thrown msg) ->
  (forall info ctx s msg, fst (listResources info ctx s) <> Thrown msg) ->
  (forall info ctx s msg, fst (listPrompts info ctx s) <> Thrown msg) ->
  log (snd (server_section skill sessionID entry w))
  = log w +++ map (@EvManager Num) (discovery_calls skill sessionID entry).
Proof.
  intros Ht Hr Hp. destruct entry as [serverName cfg].
  unfold server_section, discovery_calls, bind, try_catch, discover, invoke, bind,
         emit, modify, throw, ret.
  simpl.
  match goal with
  | |- context [listTools ?i ?c ?s] =>
      pose proof (Ht i c s) as Ht'; destruct (listTools i c s) as [[tools|m1|m1] s1]
  end; simpl in *; try (exfalso; apply (Ht' m1); reflexivity);
  match goal with
  | |- context [listResources ?i ?c ?s] =>
      pose proof (Hr i c s) as Hr'; destruct (listResources i c s) as [[resources|m2|m2] s2]
  end; simpl in *; try (exfalso; apply (Hr' m2); reflexivity);
  match goal with
  | |- context [listPrompts ?i ?c ?s] =>
      pose proof (Hp i c s) as Hp'; destruct (listPrompts i c s) as [[prompts|m3|m3] s3]
  end; simpl in *; try (exfalso; apply (Hp' m3); reflexivity);
  rewrite <- !app_assoc; reflexivity.
Qed.

Lemma traverse_log {A B : Type} (f : A -> M (World Num S) B)
  (calls : A -> list (ManagerCall Num)) :
  (forall x w, exists y, fst (f x w) = Ok y) ->
  (forall x w, log (snd (f x w)) = log w +++ map (@EvManager Num) (calls x)) ->
  forall l w,
    log (snd (traverse f l w)) = log w +++ map (@EvManager Num) (flat_map calls l).
Proof.
  intros Hok Hlog. induction l as [|x l IH]; intros w; simpl.
  - rewrite app_nil_r. reflexivity.
  - unfold bind. destruct (Hok x w) as [y Hy]. pose proof (Hlog x w) as Hx.
    destruct (f x w) as [r w1]. simpl in Hy, Hx. subst r.
    pose proof (IH w1) as Hrest.
    destruct (traverse f l w1) as [[ys|msg] w2]; simpl in *;
      rewrite Hrest, Hx, map_app, app_assoc; reflexivity.
Qed.

Lemma manager_calls_of_map (calls : list (ManagerCall Num)) :
  manager_calls (map (@EvManager Num) calls) = calls.
Proof.
  induction calls as [|c calls IH]; simpl; [reflexivity|]. rewrite IH. reflexivity.
Qed.

(** X20.  With a Manager whose discovery calls fail by rejection only,
    listing a skill makes exactly three Manager calls for every server the
    skill declares, [listTools], [listResources], [listPrompts] in this
    order, server after server in the order of the configuration, each under
    the given session id and the skill's name; a failing call does not stop
    the later ones.  A skill without servers makes no call at all. *)
Theorem listing_makes_three_calls_per_server :
  (forall info ctx s msg, fst (listTools info ctx s) <> Thrown msg) ->
  (forall info ctx s msg, fst (listResources info ctx s) <> Thrown msg) ->
  (forall info ctx s msg, fst (listPrompts info ctx s) <> Thrown msg) ->
  forall (skill : LoadedSkill Num) (sessionID : string) (w : World Num S),
    manager_calls (log (snd (formatMcpCapabilities skill sessionID w)))
    = manager_calls (log w)
      +++ flat_map (discovery_calls skill sessionID) (listed_servers skill).
Proof.
  intros Ht Hr Hp skill sessionID w.
  unfold formatMcpCapabilities, listed_servers.
  destruct (mcpConfig skill) as [cfg|]; simpl; [|rewrite app_nil_r; reflexivity].
  destruct (truthy_value cfg); simpl; [|rewrite app_nil_r; reflexivity].
  destruct (Nat.eqb (length (keys_of cfg)) 0) eqn:Ek.
  - apply Nat.eqb_eq in Ek. unfold keys_of in Ek. rewrite length_map in Ek.
    apply length_zero_iff_nil in Ek. rewrite Ek. simpl. rewrite app_nil_r. reflexivity.
  - unfold mcp_sections, bind.
    pose proof (traverse_log (server_section skill sessionID)
                  (discovery_calls skill sessionID)) as Hlog.
    rewrite <- manager_calls_of_map with (calls := flat_map _ _).
    rewrite <- manager_calls_app. rewrite <- Hlog.
    + destruct (traverse (server_section skill sessionID) (entries_of cfg) w)
        as [[blocks|msg] w1]; reflexivity.
    + intros x w0. destruct (server_section_returns skill sessionID x w0)
        as [block [w1 [Hrun _]]]. exists block. rewrite Hrun. reflexivity.
    + intros x w0. apply server_section_calls; assumption.
Qed.

(** X21.  When the three discovery calls of a server resolve, its block is
    the heading, what is rendered from the three lists, and the hint.  In it
    every discovered tool has its heading line; the resource URIs, when there
    are any, are on one line, joined by commas, and so are the prompt names;
    and when all three lists are empty the block says that no capabilities
    were discovered. *)
Theorem discovered_capabilities_are_rendered :
  forall (skill : LoadedSkill Num) (sessionID serverName : string) (cfg : JValue Num)
         (w : World Num S) (tools : list (McpTool Num)) (resources : list McpResource)
         (prompts : list McpPrompt) (s1 s2 s3 : S),
    let info := {| serverName := serverName;
                   info_skillName := name skill;
                   sessionID := sessionID |} in
    let context := {| config := OwnValue cfg; ctx_skillName := name skill |} in
    listTools info context (manager_state w) = (Resolved tools, s1) ->
    listResources info context s1 = (Resolved resources, s2) ->
    listPrompts info context s2 = (Resolved prompts, s3) ->
    fst (server_section skill sessionID (serverName, cfg) w)
      = Ok ([ "### " ++ serverName; EmptyString ]
            +++ render_capabilities tools resources prompts
            +++ [ EmptyString; invoke_hint serverName; EmptyString ])
    /\ (forall t, In t tools ->
          In ("#### `" ++ tool_name_ t ++ "`") (render_capabilities tools resources prompts))
    /\ (resources <> [] ->
          In ("**Resources**: " ++ join ", " (map uri resources))
             (render_capabilities tools resources prompts))
    /\ (prompts <> [] ->
          In ("**Prompts**: " ++ join ", " (map prompt_name_ prompts))
             (render_capabilities tools resources prompts))
    /\ (tools = [] -> resources = [] -> prompts = [] ->
          render_capabilities tools resources prompts = [ "*No capabilities discovered*" ]).
Proof.
  intros skill sessionID serverName cfg w tools resources prompts s1 s2 s3 info context
         Ht Hr Hp.
  split; [|split; [|split; [|split]]].
  - unfold server_section, bind, try_catch, discover, invoke, bind, emit, modify, throw, ret.
    simpl. fold info context. rewrite Ht. simpl. rewrite Hr. simpl. rewrite Hp. reflexivity.
  - intros t Hin. unfold render_capabilities.
    apply in_or_app. left.
    destruct tools as [|t0 tools]; [destruct Hin|]. cbn [length Nat.ltb Nat.leb].
    right. right. apply in_flat_map. exists t. split; [exact Hin|].
    unfold render_tool. left. reflexivity.
  - intros Hne. unfold render_capabilities.
    apply in_or_app. right. apply in_or_app. left.
    rewrite (proj2 (length_pos_not_nil resources) Hne). left. reflexivity.
  - intros Hne. unfold render_capabilities.
    apply in_or_app. right. apply in_or_app. right. apply in_or_app. left.
    rewrite (proj2 (length_pos_not_nil prompts) Hne). left. reflexivity.
  - intros -> -> ->. reflexivity.
Qed.

End DiscoveryCalls.

(** ** More on tools/skill-mcp.ts *)

Section SkillMcpCompose.
Import SkillMcp.
Context {Num : Type} {number : JsNumber Num} {builtins : Builtins Num}.

Lemma filter_idempotent {A : Type} (f : A -> bool) (l : list A) :
  filter f (filter f l) = filter f l.
Proof.
  induction l as [|x l IH]; simpl; [reflexivity|].
  destruct (f x) eqn:E; simpl; [rewrite E, IH; reflexivity|exact IH].
Qed.

(** X22.  Filtering is idempotent on a match: when the pattern is accepted
    and at least one line of the output matches it, filtering the filtered
    output again with the same pattern changes nothing. *)
Theorem grep_filter_is_idempotent_on_a_match :
  forall (output pattern : string) (regex : Regex),
    truthy pattern = true ->
    RegExp_new pattern "i" = Some regex ->
    filter (regex_test regex) (split_nl output) <> [] ->
    applyGrepFilter (applyGrepFilter output (Some pattern)) (Some pattern)
    = applyGrepFilter output (Some pattern).
Proof.
  intros output pattern regex Ht Hr Hne.
  assert (Hfirst : applyGrepFilter output (Some pattern)
                   = join nl (filter (regex_test regex) (split_nl output))).
  { rewrite (applyGrepFilter_valid output pattern regex Ht Hr). cbv zeta.
    rewrite (proj2 (length_pos_not_nil _) Hne). reflexivity. }
  rewrite Hfirst.
  rewrite (applyGrepFilter_valid _ pattern regex Ht Hr). cbv zeta.
  rewrite split_nl_join; [|exact Hne|apply Forall_filter, split_nl_no_lf].
  rewrite filter_idempotent.
  rewrite (proj2 (length_pos_not_nil _) Hne). reflexivity.
Qed.

(** X23.  With exactly one selector given, validation succeeds and returns
    the operation of that selector: its kind is the selector's kind and its
    name is the selector's value, which is not empty. *)
Theorem single_selector_is_the_operation :
  forall (args : Args),
    selectors_given args = 1 ->
    exists op,
      validateOperationParams args = Ok op
      /\ op_name op <> EmptyString
      /\ match type op with
         | OpTool => tool_name args = Some (op_name op)
         | OpResource => resource_name args = Some (op_name op)
         | OpPrompt => prompt_name args = Some (op_name op)
         end.
Proof.
  intros args H1. destruct (validate_one args H1) as [op [Hv Hops]].
  exists op. split; [exact Hv|split; [|apply single_operation_selector; exact Hv]].
  unfold operations, push_if in Hops.
  destruct (tool_name args) as [[|c t]|]; simpl in Hops;
    destruct (resource_name args) as [[|c' r]|]; simpl in Hops;
    destruct (prompt_name args) as [[|c'' q]|]; simpl in Hops;
    inversion Hops; subst; simpl; discriminate.
Qed.

End SkillMcpCompose.

(* ================================================================== *)
(** * Instances of Part III                                            *)
(* ================================================================== *)

Lemma bad_arguments_stop_before_manager_witness :
  SkillMcp.execute (manager := silent_manager) [ db_skill ]
    (call_with_arguments "sqlite" "query" "oops") fresh_world
  = (Throw (SkillMcp.invalid_arguments_message "Unexpected token" "oops"),
     {| currentSessionID := None;
        manager_state := tt;
        log := [ EvGetLoadedSkills; EvGetSessionID ] |}).
Proof.
  apply (bad_arguments_stop_before_manager (manager := silent_manager) [ db_skill ]
           (call_with_arguments "sqlite" "query" "oops") fresh_world
           {| SkillMcp.type := SkillMcp.OpTool; SkillMcp.op_name := "query" |}
           (db_skill, OwnValue sqlite_config)).
  - reflexivity.
  - reflexivity.
  - reflexivity.
Defined.


Example inherited_name_is_first_match :
  SkillMcp.findMcpServer "toString" [ plain_skill; db_skill; notes_skill ]
  = Ok (Some (db_skill, Inherited "toString")).
Proof. reflexivity. Qed.

Lemma tool_call_passes_manager_answer_witness :
  fst (SkillMcp.execute (manager := rejecting_manager) [ db_skill ]
         (call "sqlite" (Some "query") None None None) fresh_world)
  = Throw unreachable.
Proof.
  apply (tool_call_passes_manager_answer (manager := rejecting_manager) [ db_skill ]
           (call "sqlite" (Some "query") None None None) fresh_world
           {| SkillMcp.type := SkillMcp.OpTool; SkillMcp.op_name := "query" |}
           db_skill (OwnValue sqlite_config) (JObject [])).
  - reflexivity.
  - reflexivity.
  - reflexivity.
  - reflexivity.
Defined.

Lemma failed_disconnect_is_retried_witness :
  fst (Plugin.event (manager := throwing_manager) (Plugin.SessionDeleted "A")
         (world_in_session "A")) = Throw "spawn failed"
  /\ currentSessionID (snd (Plugin.event (manager := throwing_manager)
                              (Plugin.SessionDeleted "A") (world_in_session "A")))
     = Some "A"
  /\ Plugin.disconnect_calls
       (log (snd (Plugin.event (manager := throwing_manager) (Plugin.SessionDeleted "A")
                    (snd (Plugin.event (manager := throwing_manager)
                            (Plugin.SessionDeleted "A") (world_in_session "A"))))))
     = Plugin.disconnect_calls (log (world_in_session "A")) +++ [ Some "A"; Some "A" ].
Proof.
  apply (failed_disconnect_is_retried (manager := throwing_manager)
           (world_in_session "A") "A" "A" "A" "spawn failed" tt).
  - reflexivity.
  - reflexivity.
  - right. reflexivity.
Defined.

Lemma one_disconnect_per_created_session_witness :
  length (Plugin.disconnect_calls
            (log (Plugin.deliver (manager := silent_manager)
                    [ Plugin.SessionCreated "A"; Plugin.SessionCreated "B";
                      Plugin.SessionDeleted "B"; Plugin.SessionDeleted "A" ]
                    fresh_world)))
  <= 0 + 0 + 2.
Proof.
  apply (one_disconnect_per_created_session (manager := silent_manager)
           [ Plugin.SessionCreated "A"; Plugin.SessionCreated "B";
             Plugin.SessionDeleted "B"; Plugin.SessionDeleted "A" ] fresh_world).
  intros sid s. reflexivity.
Defined.

Lemma frontmatterMatch_decomposes_witness :
  exists br1 br2,
    Frontmatter.line_break br1 /\ Frontmatter.line_break br2
    /\ skill_md = "---" ++ br1 ++ "name: db" ++ br2 ++ "---" ++ nl ++ "Use the database."
    /\ forall a b, "name: db" = a ++ b -> b <> EmptyString ->
         Frontmatter.line_break_then "---"
           (b ++ br2 ++ "---" ++ nl ++ "Use the database.") = None.
Proof.
  apply (frontmatterMatch_decomposes skill_md "name: db" (nl ++ "Use the database.")).
  reflexivity.
Defined.

Lemma frontmatterMatch_finds_fenced_text_witness :
  exists yaml tail rest',
    Frontmatter.frontmatterMatch
      ("---" ++ nl ++ "name: db" ++ String Frontmatter.CR nl ++ "---" ++ "tail")
    = Some (yaml, rest')
    /\ "name: db" = yaml ++ tail.
Proof.
  apply (frontmatterMatch_finds_fenced_text nl (String Frontmatter.CR nl) "name: db" "tail").
  - left. reflexivity.
  - right. reflexivity.
Defined.

Lemma frontmatter_mcp_is_the_mcp_field_witness :
  truthy_value (JObject [ ("memory", memory_config) ]) = true
  /\ own_field "mcp" (Frontmatter.data
                        (Frontmatter.parseFrontmatter (builtins := reading_builtins) skill_md))
     = Some (JObject [ ("memory", memory_config) ]).
Proof.
  apply (frontmatter_mcp_is_the_mcp_field (builtins := reading_builtins) skill_md).
  reflexivity.
Defined.

Lemma skill_md_shadows_named_file_witness :
  SkillLoader.load_entry (builtins := reading_builtins) (fs := one_skill_fs)
    (dirs := one_skill_dirs) "/skills" "opencode" db_entry
  = SkillLoader.loadSkillFromPath (builtins := reading_builtins) (fs := one_skill_fs)
      "/skills/db/SKILL.md" "/skills/db" "db" "opencode".
Proof.
  apply (proj1 (skill_md_shadows_named_file (builtins := reading_builtins)
                  (fs := one_skill_fs) (dirs := one_skill_dirs)
                  "/skills" "opencode" db_entry eq_refl eq_refl eq_refl)).
Defined.

Example walk_loads_visible_folder :
  SkillLoader.loadSkillsFromDir (builtins := reading_builtins) (fs := one_skill_fs)
    (dirs := one_skill_dirs) "/skills" "opencode" = [ loaded_db_skill ].
Proof. reflexivity. Qed.

Lemma listing_makes_three_calls_per_server_witness :
  manager_calls
    (log (snd (SkillTool.formatMcpCapabilities (manager := rejecting_manager)
                 db_skill "s1" fresh_world)))
  = manager_calls (log fresh_world)
    +++ flat_map (SkillTool.discovery_calls db_skill "s1") (SkillTool.listed_servers db_skill).
Proof.
  apply (listing_makes_three_calls_per_server (manager := rejecting_manager)).
  - intros info ctx s msg. discriminate.
  - intros info ctx s msg. discriminate.
  - intros info ctx s msg. discriminate.
Defined.

Lemma discovered_capabilities_are_rendered_witness :
  fst (SkillTool.server_section (manager := catalog_manager) db_skill "s1"
         ("sqlite", sqlite_config) fresh_world)
  = Ok ([ "### sqlite"; EmptyString ]
        +++ SkillTool.render_capabilities [ query_tool ] [ {| uri := "db://tables" |} ] []
        +++ [ EmptyString; SkillTool.invoke_hint "sqlite"; EmptyString ]).
Proof.
  apply (proj1 (discovered_capabilities_are_rendered (manager := catalog_manager)
                  db_skill "s1" "sqlite" sqlite_config fresh_world
                  [ query_tool ] [ {| uri := "db://tables" |} ] [] tt tt tt
                  eq_refl eq_refl eq_refl)).
Defined.

Lemma grep_filter_is_idempotent_on_a_match_witness :
  SkillMcp.applyGrepFilter (SkillMcp.applyGrepFilter three_lines (Some "alpha")) (Some "alpha")
  = SkillMcp.applyGrepFilter three_lines (Some "alpha").
Proof.
  apply (grep_filter_is_idempotent_on_a_match (builtins := tiny_builtins)
           three_lines "alpha" "alpha").
  - reflexivity.
  - reflexivity.
  - vm_compute. discriminate.
Defined.

Lemma single_selector_is_the_operation_witness :
  exists op,
    SkillMcp.validateOperationParams (call "sqlite" (Some EmptyString) (Some "db://tables") None None)
    = Ok op
    /\ SkillMcp.op_name op <> EmptyString
    /\ match SkillMcp.type op with
       | SkillMcp.OpTool => Some EmptyString = Some (SkillMcp.op_name op)
       | SkillMcp.OpResource => Some "db://tables" = Some (SkillMcp.op_name op)
       | SkillMcp.OpPrompt => None = Some (SkillMcp.op_name op)
       end.
Proof.
  apply (single_selector_is_the_operation
           (call "sqlite" (Some EmptyString) (Some "db://tables") None None)).
  reflexivity.
Defined.

(** ** The not-found report *)

Section NotFoundReport.
Import SkillMcp.
Context {Num : Type} {number : JsNumber Num} {builtins : Builtins Num}.
Context {S : Type} {manager : SkillMcpManager Num S}.



End NotFoundReport.


(** ** Instances for the loader *)

Lemma loadSkillFromPath_result_witness :
  exists skill,
    SkillLoader.loadSkillFromPath (builtins := reading_builtins) (fs := one_skill_fs)
      "/skills/db/SKILL.md" "/skills/db" "fallback" "opencode" = Some skill
    /\ name skill = "db"
    /\ startsWith (description skill) "(opencode - Skill) " = true.
Proof.
  destruct (proj2 (loadSkillFromPath_result (builtins := reading_builtins)
                     (fs := one_skill_fs)
                     "/skills/db/SKILL.md" "/skills/db" "fallback" "opencode")
                  skill_md eq_refl)
    as [skill [Hload [_ [_ [_ [Hname [_ [_ [Hdesc _]]]]]]]]].
  - split; exact I.
  - exists skill. split; [exact Hload|split; [|exact Hdesc]].
    apply Hname; [reflexivity|discriminate].
Defined.

Lemma two_scopes_files_are_typed :
  SkillLoader.typed_skill_files (builtins := reading_builtins) (fs := two_scopes_fs).
Proof.
  intros p content. simpl.
  destruct (String.eqb p "/home/dev/.config/opencode/skill/db/SKILL.md").
  - intros Heq. inversion Heq. split; exact I.
  - destruct (String.eqb p "/work/.opencode/skill/db/SKILL.md"); [|discriminate].
    intros Heq. inversion Heq. split; exact I.
Defined.

Lemma discoverSkills_project_wins_witness :
  NoDup (map name (SkillLoader.discoverSkills (builtins := reading_builtins)
                     (fs := two_scopes_fs) (dirs := two_scopes_dirs)))
  /\ SkillLoader.discoverSkills (builtins := reading_builtins)
       (fs := two_scopes_fs) (dirs := two_scopes_dirs) = [ project_db_skill ].
Proof.
  split; [|reflexivity].
  apply (proj1 (discoverSkills_project_wins (builtins := reading_builtins)
                  (fs := two_scopes_fs) (dirs := two_scopes_dirs)
                  two_scopes_files_are_typed)).
Defined.
